(** * BTC accumulation bot: sizing policy, signer, API client and balance parsing

    A shallow embedding of [btc_bot.py].

    - Python floats are IEEE-754 binary64 values: Rocq's primitive floats, whose
      operations [FloatAxioms] specifies against the [SpecFloat] semantics.
      [numpy.float64] has the same comparisons and arithmetic, except that its
      division never raises.
    - Python integers are unbounded: [Z].
    - Python [str] and [bytes] are both [string]; UTF-8 encoding and decoding
      are the identity on this representation.
    - Values decoded from JSON are the trees of type [json]; a dict is the
      list of its items in insertion order, with distinct keys.
    - Exceptions (the subclasses of [Exception]) are values of type [exn] in an
      error monad; the clock, the network and the log are threaded through a
      state, and every answer of the outside world is read from an
      [Environment].
    - Functions of the Python runtime and of imported libraries (Base64, HMAC,
      [json], [float] and [int] on strings, [numpy.mean], number formatting)
      are the fields of a [Library]; the facts hold for every [Library] and
      every [Environment].  The Base64 decoder of CPython is also given as a
      function, [a2b_base64], for the facts that depend on what it accepts.
    - A logging call is recorded by its level, its fixed text (without
      decoration) and the values it interpolates.

    The runtime is CPython 3.8 or later ([reversed] accepts a dict) with
    [requests] 2.27 or later (a body that is not JSON raises a
    [RequestException]). *)

From Stdlib Require Import ZArith Bool List String Ascii Lia.
From Stdlib Require Import Floats DecimalString.
Import ListNotations.

#[local] Set Warnings "-inexact-float,-register-all".

Local Open Scope string_scope.
Local Open Scope Z_scope.
Local Open Scope bool_scope.

(** ** Binary64 helpers *)

Module F64.

(** [x > y] on floats is the IEEE comparison [y < x]. *)
Definition gtb (x y : float) : bool := (y <? x)%float.

Definition sf_is_nan (x : spec_float) : bool :=
  match x with S754_nan => true | _ => false end.

Definition sf_is_zero (x : spec_float) : bool :=
  match x with S754_zero _ => true | _ => false end.

(** Strictly positive: [+inf] or a finite value with a clear sign bit. *)
Definition sf_is_pos (x : spec_float) : bool :=
  match x with
  | S754_infinity false | S754_finite false _ _ => true
  | _ => false
  end.

(** Finite in the IEEE sense: a zero or a finite non-zero value. *)
Definition sf_is_fin (x : spec_float) : bool :=
  match x with
  | S754_zero _ | S754_finite _ _ _ => true
  | _ => false
  end.

Definition not_nan (x : float) : Prop := sf_is_nan (Prim2SF x) = false.

(** [float(n)] for a Python integer [n]: rounded to nearest-even; [None]
    stands for [OverflowError]. *)
Definition of_Z (n : Z) : option float :=
  let f := SF2Prim (binary_normalize prec emax n 0 false) in
  if is_infinity f then None else Some f.

(** The integer a float denotes when it is integral. *)
Definition integral_value (f : float) : option Z :=
  match Prim2SF f with
  | S754_zero _ => Some 0
  | S754_finite s m e =>
      let mag := Z.shiftl (Z.pos m) e in
      if Z.shiftl mag (- e) =? Z.pos m
      then Some (if s then - mag else mag) else None
  | _ => None
  end.

(** [int(f)]: truncation towards zero; [None] on NaN and infinities. *)
Definition truncate (f : float) : option Z :=
  match Prim2SF f with
  | S754_zero _ => Some 0
  | S754_finite s m e =>
      let mag := Z.shiftl (Z.pos m) e in
      Some (if s then - mag else mag)
  | _ => None
  end.

End F64.

(** [str(n)] for a Python integer. *)
Definition string_of_Z (z : Z) : string := NilZero.string_of_int (Z.to_int z).

(** ** Decoded JSON, exceptions and results *)

Inductive json :=
| JNull
| JBool (b : bool)
| JInt (z : Z)
| JFloat (f : float)
| JStr (s : string)
| JArr (items : list json)
| JObj (fields : list (string * json)).

(** The [raise Exception(...)] sites of the bot, with what their f-string
    interpolates. *)
Inductive bot_error :=
| ApiError (detail : json)
| CandlesApiError (detail : json)
| NoCandleData
| InsufficientPriceData (days : nat)
| BalanceApiError (detail : json)
| ApiConnectionTestFailed.

Inductive exn :=
| ValueError | TypeError | KeyError | IndexError | AttributeError
| OverflowError | ZeroDivisionError
| BinasciiError                       (* [binascii.Error], from [b64decode] *)
| RequestsTimeout                     (* [requests.exceptions.Timeout] *)
| RequestsException                   (* any other [RequestException] *)
| OtherError                          (* any other subclass of [Exception] *)
| Exception_ (e : bot_error).

Inductive res (A : Type) :=
| Ret (a : A)
| Raise (e : exn).
Arguments Ret {A} a.
Arguments Raise {A} e.

Definition res_bind {A B : Type} (c : res A) (k : A -> res B) : res B :=
  match c with
  | Ret a => k a
  | Raise e => Raise e
  end.

Definition of_option {A : Type} (e : exn) (o : option A) : res A :=
  match o with
  | Some a => Ret a
  | None => Raise e
  end.

Declare Scope res_scope.
Delimit Scope res_scope with res.
Notation "x <- c ;; k" := (res_bind c (fun x => k))
  (at level 61, c at next level, right associativity) : res_scope.

(** [[f(x) for x in xs]] when [f] can raise: the first exception wins. *)
Fixpoint res_map {A B : Type} (f : A -> res B) (xs : list A) : res (list B) :=
  match xs with
  | [] => Ret []
  | x :: xs' =>
      (y <- f x ;;
       ys <- res_map f xs' ;;
       Ret (y :: ys))%res
  end.

(** ** Python operations on decoded JSON *)

Fixpoint lookup (k : string) (fields : list (string * json)) : option json :=
  match fields with
  | [] => None
  | (k', v) :: rest => if String.eqb k k' then Some v else lookup k rest
  end.

(** [d[k] = v] on a dict: overwrite in place, or insert at the end. *)
Fixpoint dict_set (k : string) (v : json) (fields : list (string * json))
  : list (string * json) :=
  match fields with
  | [] => [(k, v)]
  | (k', v') :: rest =>
      if String.eqb k k' then (k', v) :: rest else (k', v') :: dict_set k v rest
  end.

Fixpoint substringb (needle hay : string) : bool :=
  prefix needle hay ||
  match hay with
  | EmptyString => false
  | String _ hay' => substringb needle hay'
  end.

Definition is_str (s : string) (v : json) : bool :=
  match v with
  | JStr s' => String.eqb s s'
  | _ => false
  end.

(** [s in v] for a string [s]: key membership on a dict, element equality on
    a list, substring on a string, [TypeError] otherwise. *)
Definition py_contains (s : string) (v : json) : res bool :=
  match v with
  | JObj fields => Ret (match lookup s fields with Some _ => true | None => false end)
  | JArr items => Ret (existsb (is_str s) items)
  | JStr s' => Ret (substringb s s')
  | _ => Raise TypeError
  end.

(** [v.get(k, default)]: only dicts have the method. *)
Definition py_get (v : json) (k : string) (default : json) : res json :=
  match v with
  | JObj fields => Ret (match lookup k fields with Some x => x | None => default end)
  | _ => Raise AttributeError
  end.

(** [v[k]] for a string key. *)
Definition py_getitem_str (v : json) (k : string) : res json :=
  match v with
  | JObj fields => of_option KeyError (lookup k fields)
  | _ => Raise TypeError
  end.

Definition chars (s : string) : list json :=
  map (fun c => JStr (String c EmptyString)) (list_ascii_of_string s).

(** Python sequence indexing: a negative index counts from the end. *)
Definition seq_index {A : Type} (xs : list A) (i : Z) : res A :=
  let n := Z.of_nat (List.length xs) in
  let j := if i <? 0 then i + n else i in
  if (j <? 0) || (n <=? j) then Raise IndexError
  else of_option IndexError (nth_error xs (Z.to_nat j)).

(** [v[i]] for an integer index. *)
Definition py_getitem_int (v : json) (i : Z) : res json :=
  match v with
  | JArr items => seq_index items i
  | JStr s => seq_index (chars s) i
  | JObj _ => Raise KeyError
  | _ => Raise TypeError
  end.

(** Truth value. *)
Definition py_bool (v : json) : bool :=
  match v with
  | JNull => false
  | JBool b => b
  | JInt z => negb (z =? 0)
  | JFloat f => negb (f =? 0)%float
  | JStr s => negb (String.eqb s "")
  | JArr items => match items with [] => false | _ => true end
  | JObj fields => match fields with [] => false | _ => true end
  end.

Definition py_len (v : json) : res nat :=
  match v with
  | JStr s => Ret (String.length s)
  | JArr items => Ret (List.length items)
  | JObj fields => Ret (List.length fields)
  | _ => Raise TypeError
  end.

(** [reversed(v)], consumed by a comprehension (a dict yields its keys). *)
Definition py_reversed (v : json) : res (list json) :=
  match v with
  | JArr items => Ret (rev items)
  | JStr s => Ret (rev (chars s))
  | JObj fields => Ret (rev (map (fun kv => JStr (fst kv)) fields))
  | _ => Raise TypeError
  end.

(** [xs[-k:]] on a list. *)
Definition slice_last {A : Type} (k : nat) (xs : list A) : list A :=
  match k with
  | O => xs
  | _ => skipn (List.length xs - k) xs
  end.

(** ** The outside world: clock, network and log *)

Inductive level := DEBUG | INFO | WARNING | ERROR.

(** A logging call: its level, the fixed text of its f-string and the values
    the f-string interpolates, in order. *)
Inductive logarg :=
| AJson (v : json)
| AFloat (f : float)
| AInt (z : Z)
| AStr (s : string)
| AExn (e : exn).

Record log_record := {
  log_level : level;
  log_text : string;
  log_args : list logarg
}.

Record http_request := {
  url : string;
  headers : list (string * string);
  method : string;
  data : option string
}.

(** What [urlopen] followed by [response.read()] does. *)
Inductive transport_outcome :=
| Responded (code : Z) (body : string)
| RaisedHTTPError (code : Z) (reason : string) (body : option string)
| RaisedURLError (reason : string)
| RaisedException (text : string).

(** What [requests.get] does, and whether [raise_for_status] and [json()]
    then succeed. *)
Inductive requests_outcome :=
| Timeout
| RequestException
| OtherException
| Response (ok : bool) (payload : option json).

(** The world as the bot meets it: the [k]-th reading of [time.time()] and the
    answer to the [k]-th network call. *)
Record Environment := {
  time_time : nat -> float;
  urlopen : nat -> http_request -> transport_outcome;
  requests_get : nat -> string -> Z -> requests_outcome
}.

(** Functions of the Python runtime and of the libraries the bot imports. *)
Record Library := {
  b64decode : string -> option string;          (* [binascii.a2b_base64] on ASCII
                                                   data; [None]: [binascii.Error] *)
  b64encode : string -> string;
  hmac_sha512 : string -> string -> string;     (* key, message: the digest *)
  json_dumps : string -> string -> json -> string;  (* item and key separators *)
  json_loads : string -> json + string;         (* [inr]: the text of the [ValueError] *)
  float_of_string : string -> option float;     (* [None]: [ValueError] *)
  int_of_string : string -> option Z;           (* [None]: [ValueError] *)
  np_mean : list float -> float;
  format_8f : float -> string;                  (* [f"{x:.8f}"] *)
  str_of_json : json -> string                  (* [str(v)] *)
}.

Record World := {
  clock : nat;                (* readings of the clock so far *)
  net : nat;                  (* network calls so far *)
  sent : list http_request;   (* the requests handed to [urlopen], oldest first *)
  log : list log_record
}.

Definition M (A : Type) : Type := World -> res A * World.

Definition ret {A : Type} (a : A) : M A := fun w => (Ret a, w).
Definition raise {A : Type} (e : exn) : M A := fun w => (Raise e, w).
Definition lift {A : Type} (c : res A) : M A := fun w => (c, w).

Definition bind {A B : Type} (c : M A) (k : A -> M B) : M B :=
  fun w =>
    match c w with
    | (Ret a, w') => k a w'
    | (Raise e, w') => (Raise e, w')
    end.

(** [try: c except Exception as e: h e]. *)
Definition try_except {A : Type} (c : M A) (h : exn -> M A) : M A :=
  fun w =>
    match c w with
    | (Ret a, w') => (Ret a, w')
    | (Raise e, w') => h e w'
    end.

Declare Scope M_scope.
Delimit Scope M_scope with M.
Notation "x <- c ;; k" := (bind c (fun x => k))
  (at level 61, c at next level, right associativity) : M_scope.
Notation "c ;;; k" := (bind c (fun _ => k))
  (at level 61, right associativity) : M_scope.

(** The world with one more record in its log. *)
Definition logged (w : World) (r : log_record) : World :=
  {| clock := clock w; net := net w; sent := sent w; log := log w ++ [r] |}.

Definition logging (l : level) (text : string) (args : list logarg) : M unit :=
  fun w => (Ret tt, logged w {| log_level := l; log_text := text; log_args := args |}).

Definition read_clock (env : Environment) : M float :=
  fun w =>
    (Ret (time_time env (clock w)),
     {| clock := S (clock w); net := net w; sent := sent w; log := log w |}).

Definition call_urlopen (env : Environment) (r : http_request) : M transport_outcome :=
  fun w =>
    (Ret (urlopen env (net w) r),
     {| clock := clock w; net := S (net w); sent := sent w ++ [r]; log := log w |}).

Definition call_requests_get (env : Environment) (u : string) (timeout : Z)
  : M requests_outcome :=
  fun w =>
    (Ret (requests_get env (net w) u timeout),
     {| clock := clock w; net := S (net w); sent := sent w; log := log w |}).

(** [float(v)] and [int(v)] on a decoded value. *)
Definition py_float (lib : Library) (v : json) : res float :=
  match v with
  | JStr s => of_option ValueError (float_of_string lib s)
  | JInt z => of_option OverflowError (F64.of_Z z)
  | JFloat f => Ret f
  | JBool b => Ret (if b then 1%float else 0%float)
  | _ => Raise TypeError
  end.

Definition py_int_of_float (f : float) : res Z :=
  match F64.truncate f with
  | Some z => Ret z
  | None => if is_nan f then Raise ValueError else Raise OverflowError
  end.

Definition py_int (lib : Library) (v : json) : res Z :=
  match v with
  | JStr s => of_option ValueError (int_of_string lib s)
  | JInt z => Ret z
  | JBool b => Ret (if b then 1 else 0)
  | JFloat f => py_int_of_float f
  | _ => Raise TypeError
  end.

(** ** Base64 decoding ([base64.b64decode] with its defaults) *)

(** [s.encode('ascii')] succeeds. *)
Definition is_ascii (s : string) : bool :=
  forallb (fun c => Z.of_nat (nat_of_ascii c) <? 128) (list_ascii_of_string s).

(** [base64.b64decode(s)] for a [str]: a character outside ASCII is a plain
    [ValueError]; the data then goes to [binascii.a2b_base64], whose failure
    is [binascii.Error]. *)
Definition base64_b64decode (lib : Library) (s : string) : res string :=
  if is_ascii s then of_option BinasciiError (b64decode lib s)
  else Raise ValueError.

(** The decoding table of [binascii]: the value of a character of the
    alphabet. *)
Definition b64_value (c : ascii) : option Z :=
  let n := Z.of_nat (nat_of_ascii c) in
  if (65 <=? n) && (n <=? 90) then Some (n - 65)
  else if (97 <=? n) && (n <=? 122) then Some (n - 71)
  else if (48 <=? n) && (n <=? 57) then Some (n + 4)
  else if n =? 43 then Some 62
  else if n =? 47 then Some 63
  else None.

Definition byte (n : Z) : ascii := ascii_of_nat (Z.to_nat n).

(** The loop of [binascii.a2b_base64] without [strict_mode], as CPython 3.11
    has it: characters outside the alphabet are skipped; a pad character ends
    the input once it completes a group that holds at least two characters;
    data that stops inside a group is an error. *)
Fixpoint a2b_loop (s : string) (quad_pos pads : nat) (leftchar : Z) (out : string)
  : option string :=
  match s with
  | EmptyString => match quad_pos with O => Some out | _ => None end
  | String c rest =>
      if Ascii.eqb c "=" then
        if Nat.leb 2 quad_pos then
          if Nat.leb 4 (quad_pos + S pads) then Some out
          else a2b_loop rest quad_pos (S pads) leftchar out
        else a2b_loop rest quad_pos pads leftchar out
      else
        match b64_value c with
        | None => a2b_loop rest quad_pos pads leftchar out
        | Some v =>
            match quad_pos with
            | 0%nat => a2b_loop rest 1 0 v out
            | 1%nat =>
                a2b_loop rest 2 0 (Z.land v 15)
                  (out ++ String (byte (Z.lor (Z.shiftl leftchar 2) (Z.shiftr v 4))) "")
            | 2%nat =>
                a2b_loop rest 3 0 (Z.land v 3)
                  (out ++ String (byte (Z.lor (Z.shiftl leftchar 4) (Z.shiftr v 2))) "")
            | _ =>
                a2b_loop rest 0 0 0
                  (out ++ String (byte (Z.lor (Z.shiftl leftchar 6) v)) "")
            end
        end
  end.

Definition a2b_base64 (s : string) : option string := a2b_loop s 0 0 0 "".

(** ** Configuration ([class Config]) *)

Record Config := {
  BTCMARKETS_API_KEY : option string;           (* [os.getenv]: [None] when unset *)
  BTCMARKETS_PRIVATE_KEY : option string;
  BASE_WEEKLY_AMOUNT : float;
  MAX_WEEKLY_AMOUNT : float;
  MIN_WEEKLY_AMOUNT : float
}.




(** ** The exchange client ([class BTCMarketsClient]) *)

Record BTCMarketsClient := {
  base_url : string;
  api_key : string;
  private_key : string              (* the decoded secret *)
}.

Section Client.

Variable lib : Library.
Variable env : Environment.

Definition BTCMarketsClient__init__ (api_key private_key : string)
  : res BTCMarketsClient :=
  (key <- base64_b64decode lib private_key ;;
   Ret {| base_url := "https://api.btcmarkets.net";
          api_key := api_key;
          private_key := key |})%res.

Definition __sign_message (private_key message : string) : string :=
  b64encode lib (hmac_sha512 lib private_key message).

(** The canonical message of a request stamped [now]. *)
Definition signed_message (method path now : string) (data : option string)
  : string :=
  let message := (method ++ path ++ now)%string in
  match data with
  | Some d => (message ++ d)%string
  | None => message
  end.

Definition ___build_headers (method api_key private_key path : string)
           (data : option string) : M (list (string * string)) :=
  (t <- read_clock env ;;
   ms <- lift (py_int_of_float (t * 1000)%float) ;;
   let now := string_of_Z ms in
   let message := signed_message method path now data in
   let signature := __sign_message private_key message in
   ret [ ("Accept", "application/json");
         ("Accept-Charset", "UTF-8");
         ("Content-Type", "application/json");
         ("BM-AUTH-APIKEY", api_key);
         ("BM-AUTH-TIMESTAMP", now);
         ("BM-AUTH-SIGNATURE", signature);
         ("User-Agent", "BTC-Accumulation-Bot/2.0") ])%M.

(** The body [urlopen] is given: only for POST and PUT, and only when the
    serialized data is a non-empty string. *)
Definition request_body (method : string) (data : option string) : option string :=
  if String.eqb method "POST" || String.eqb method "PUT" then
    match data with
    | Some d => if String.eqb d "" then None else Some d
    | None => None
    end
  else None.

(** The handlers of [__make_http_call], by what the transport did. *)
Definition handle_outcome (method path : string) (outcome : transport_outcome)
  : M json :=
  match outcome with
  | Responded code body =>
      match json_loads lib body with
      | inl response_data =>
          (logging DEBUG "API Response" [AStr method; AStr path; AInt code] ;;;
           ret response_data)%M
      | inr text =>
          (logging ERROR "API Unexpected Error" [AStr text] ;;;
           ret (JObj [("error", JStr ("Unexpected error: " ++ text))]))%M
      end
  | RaisedHTTPError code reason body =>
      let fallback :=
        (logging ERROR "API HTTP Error" [AInt code; AStr reason] ;;;
         ret (JObj [("error", JStr ("HTTP " ++ string_of_Z code ++ ": " ++ reason));
                    ("statusCode", JInt code)]))%M in
      match body with
      | Some b =>
          match json_loads lib b with
          | inl (JObj fields) =>
              let error_data := JObj (dict_set "statusCode" (JInt code) fields) in
              (logging ERROR "API HTTP Error" [AInt code; AJson error_data] ;;;
               ret error_data)%M
          | _ => fallback
          end
      | None => fallback
      end
  | RaisedURLError reason =>
      (logging ERROR "API URL Error" [AStr reason] ;;;
       ret (JObj [("error", JStr ("Network error: " ++ reason))]))%M
  | RaisedException text =>
      (logging ERROR "API Unexpected Error" [AStr text] ;;;
       ret (JObj [("error", JStr ("Unexpected error: " ++ text))]))%M
  end.

Definition __make_http_call (self : BTCMarketsClient)
           (method apiKey privateKey path : string)
           (queryString : option string) (data : option json) : M json :=
  let data := option_map (json_dumps lib "," ":") data in
  (headers <- ___build_headers method apiKey privateKey path data ;;
   let full_path :=
     match queryString with
     | None => path
     | Some q => (path ++ "?" ++ q)%string
     end in
   let http_request :=
     {| url := (base_url self ++ full_path)%string;
        headers := headers;
        method := method;
        data := request_body method data |} in
   outcome <- call_urlopen env http_request ;;
   handle_outcome method path outcome)%M.

Definition get_ticker (self : BTCMarketsClient) (market_id : string) : M json :=
  __make_http_call self "GET" (api_key self) (private_key self)
    ("/v3/markets/" ++ market_id ++ "/ticker") None None.

Definition get_candles (self : BTCMarketsClient) (market_id timeWindow : string)
           (limit : Z) : M json :=
  let query_string := ("timeWindow=" ++ timeWindow ++ "&limit=" ++ string_of_Z limit)%string in
  __make_http_call self "GET" (api_key self) (private_key self)
    ("/v3/markets/" ++ market_id ++ "/candles") (Some query_string) None.

Definition get_account_balances (self : BTCMarketsClient) : M json :=
  __make_http_call self "GET" (api_key self) (private_key self)
    "/v3/accounts/me/balances" (Some "") None.

Definition get_orders (self : BTCMarketsClient) (status : string) : M json :=
  let query_string :=
    if String.eqb status "" then "" else ("status=" ++ status)%string in
  __make_http_call self "GET" (api_key self) (private_key self)
    "/v3/orders" (Some query_string) None.

Definition place_market_buy_order (self : BTCMarketsClient)
           (market_id amount : string) : M json :=
  let payload :=
    JObj [ ("marketId", JStr market_id);
           ("amount", JStr amount);
           ("type", JStr "Market");
           ("side", JStr "Bid") ] in
  __make_http_call self "POST" (api_key self) (private_key self)
    "/v3/orders" None (Some payload).

Definition place_limit_buy_order (self : BTCMarketsClient)
           (market_id amount price : string) : M json :=
  let payload :=
    JObj [ ("marketId", JStr market_id);
           ("price", JStr price);
           ("amount", JStr amount);
           ("type", JStr "Limit");
           ("side", JStr "Bid") ] in
  __make_http_call self "POST" (api_key self) (private_key self)
    "/v3/orders" None (Some payload).

Definition cancel_order (self : BTCMarketsClient) (order_id : string) : M json :=
  let query_string := ("id=" ++ order_id)%string in
  __make_http_call self "DELETE" (api_key self) (private_key self)
    "/v3/orders" (Some query_string) None.

End Client.

(** ** The bot ([class BTCAccumulationBot]) *)

(** Keys of the [balance_info] dict.  Python hashes numbers by value, so a
    boolean or an integral float is the same key as the integer it equals.
    The decoder of [json] hands out one NaN object, and a dict finds a key by
    identity before it compares: NaN is one key. *)
Inductive pykey :=
| KNone
| KStr (s : string)
| KInt (z : Z)
| KFloat (f : float).

Definition key_eqb (a b : pykey) : bool :=
  match a, b with
  | KNone, KNone => true
  | KStr x, KStr y => String.eqb x y
  | KInt x, KInt y => x =? y
  | KFloat x, KFloat y => (x =? y)%float || (is_nan x && is_nan y)
  | _, _ => false
  end.

(** The key a decoded value is stored under; lists and dicts are unhashable. *)
Definition py_key (v : json) : res pykey :=
  match v with
  | JNull => Ret KNone
  | JStr s => Ret (KStr s)
  | JInt z => Ret (KInt z)
  | JBool b => Ret (KInt (if b then 1 else 0))
  | JFloat f =>
      Ret (match F64.integral_value f with
           | Some z => KInt z
           | None => KFloat f
           end)
  | JArr _ | JObj _ => Raise TypeError
  end.

Definition balances := list (pykey * float).

Fixpoint balances_get (k : pykey) (d : balances) : option float :=
  match d with
  | [] => None
  | (k', v) :: rest => if key_eqb k k' then Some v else balances_get k rest
  end.

Fixpoint balances_set (k : pykey) (v : float) (d : balances) : balances :=
  match d with
  | [] => [(k, v)]
  | (k', v') :: rest =>
      if key_eqb k k' then (k', v) :: rest else (k', v') :: balances_set k v rest
  end.

(** [balance_info[asset_name] = x]. *)
Definition store_balance (asset_name : json) (x : float) (balance_info : balances)
  : res balances :=
  (k <- py_key asset_name ;;
   Ret (balances_set k x balance_info))%res.

(** The signal f-strings, by the branch that builds them and the values they
    interpolate. *)
Inductive signal :=
| PerfectStorm (mayer : float) (fear_greed : Z)
| ExtremeOversoldFear (mayer : float) (fear_greed : Z)
| ExtremeOversold (mayer : float)
| UndersoldFear (mayer : float) (fear_greed : Z)
| Undersold (mayer : float)
| FairValueFear (mayer : float) (fear_greed : Z)
| ExtremeBubble (mayer : float)
| Overbought (mayer : float)
| FairValue (mayer : float).

(** The [reason] of a failed order. *)
Inductive reason :=
| AmountBelowMinimum
| InsufficientBalance (aud_balance : float)
| OrderError (error_msg : json)
| ExceptionText (e : exn).

(** The dict [execute_buy_order] returns. *)
Inductive order_result :=
| Failure (r : reason)
| Success (btc_amount aud_amount : float) (order_id order_status : json)
          (price : float) (order_details : json).

Definition success (r : order_result) : bool :=
  match r with
  | Success _ _ _ _ _ _ => true
  | Failure _ => false
  end.

Record portfolio := {
  btc_balance : float;
  btc_value_aud : float;
  aud_balance : float;
  total_portfolio_aud : float;
  current_btc_price : float
}.

Record BTCAccumulationBot := {
  config : Config;
  client : BTCMarketsClient;
  market_id : string;
  min_btc_order : float
}.

(** The [if]/[elif] chain of [calculate_buy_amount].  [multiplier] starts at
    [1.0] and the final [else] leaves it untouched. *)
Definition select_multiplier (mayer : float) (fear_greed : Z) : float * signal :=
  if (mayer <? 0.8)%float && (fear_greed <? 25) then
    (4.0%float, PerfectStorm mayer fear_greed)
  else if (mayer <? 0.8)%float && (fear_greed <? 35) then
    (3.5%float, ExtremeOversoldFear mayer fear_greed)
  else if (mayer <? 0.8)%float then
    (3.0%float, ExtremeOversold mayer)
  else if (mayer <? 1.0)%float && (fear_greed <? 30) then
    (2.5%float, UndersoldFear mayer fear_greed)
  else if (mayer <? 1.0)%float then
    (1.8%float, Undersold mayer)
  else if (mayer <? 1.2)%float && (fear_greed <? 40) then
    (1.2%float, FairValueFear mayer fear_greed)
  else if F64.gtb mayer 2.4 then
    (0.0%float, ExtremeBubble mayer)
  else if F64.gtb mayer 1.6 then
    (0.2%float, Overbought mayer)
  else
    (1.0%float, FairValue mayer).

(** Python's two-argument [min] and [max] keep the first argument unless the
    second compares strictly below (above) it. *)
Definition py_min (a b : float) : float := if (b <? a)%float then b else a.
Definition py_max (a b : float) : float := if F64.gtb b a then b else a.

(** Lines 325-327.  The integer [0] of the source is the float zero here: the
    two compare alike against every float. *)
Definition clamp_amount (config : Config) (multiplier : float) : float :=
  let final_amount := (BASE_WEEKLY_AMOUNT config * multiplier)%float in
  py_max (py_min final_amount (MAX_WEEKLY_AMOUNT config))
         (if F64.gtb multiplier 0 then MIN_WEEKLY_AMOUNT config else 0%float).

(** Lines 294-327 as a function of the two indicators. *)
Definition decide (config : Config) (mayer : float) (fear_greed : Z) : float * signal :=
  let '(multiplier, signal) := select_multiplier mayer fear_greed in
  (clamp_amount config multiplier, signal).

(** ['error' in v or 'statusCode' in v]. *)
Definition error_shaped (v : json) : res bool :=
  (c <- py_contains "error" v ;;
   if c then Ret true else py_contains "statusCode" v)%res.

Definition is_none (v : json) : bool :=
  match v with
  | JNull => true
  | _ => false
  end.

(** Division of two Python floats. *)
Definition py_truediv (a b : float) : res float :=
  if (b =? 0)%float then Raise ZeroDivisionError else Ret (a / b)%float.

Section Bot.

Variable lib : Library.
Variable env : Environment.


Definition get_current_price (self : BTCAccumulationBot) : M float :=
  try_except
    (ticker <- get_ticker lib env (client self) (market_id self) ;;
     c <- lift (error_shaped ticker) ;;
     if c then
       d <- lift (py_get ticker "error" ticker) ;;
       raise (Exception_ (ApiError d))
     else
       v <- lift (py_getitem_str ticker "lastPrice") ;;
       price <- lift (py_float lib v) ;;
       logging DEBUG "Current BTC price" [AFloat price] ;;;
       ret price)%M
    (fun e =>
       logging ERROR "Failed to get current price" [AExn e] ;;;
       raise e)%M.

(** [[float(candle[4]) for candle in reversed(candles)]]. *)
Definition closing_prices (candles : json) : res (list float) :=
  (rc <- py_reversed candles ;;
   res_map (fun candle => x <- py_getitem_int candle 4 ;; py_float lib x) rc)%res.

(** [not candles or len(candles) == 0]. *)
Definition no_candles (candles : json) : res bool :=
  if negb (py_bool candles) then Ret true
  else (n <- py_len candles ;; Ret (Nat.eqb n 0))%res.

Definition get_mayer_multiple (self : BTCAccumulationBot) : M float :=
  try_except
    (candles <- get_candles lib env (client self) (market_id self) "1d" 200 ;;
     c <- lift (error_shaped candles) ;;
     if c then
       d <- lift (py_get candles "error" candles) ;;
       raise (Exception_ (CandlesApiError d))
     else
       e <- lift (no_candles candles) ;;
       if e then raise (Exception_ NoCandleData)
       else
         prices <- lift (closing_prices candles) ;;
         if Nat.ltb (List.length prices) 50 then
           raise (Exception_ (InsufficientPriceData (List.length prices)))
         else
           let ma_period := Nat.min 200 (List.length prices) in
           let ma_200 := np_mean lib (slice_last ma_period prices) in
           current_price <- get_current_price self ;;
           let mayer_multiple := (current_price / ma_200)%float in
           logging INFO "day MA" [AInt (Z.of_nat ma_period); AFloat ma_200] ;;;
           logging INFO "Current Price" [AFloat current_price] ;;;
           logging INFO "Mayer Multiple" [AFloat mayer_multiple] ;;;
           ret mayer_multiple)%M
    (fun e =>
       logging ERROR "Failed to calculate Mayer Multiple" [AExn e] ;;;
       raise e)%M.

(** [int(data['data'][0]['value'])]. *)
Definition fear_greed_value (data : json) : res Z :=
  (d <- py_getitem_str data "data" ;;
   first <- py_getitem_int d 0 ;;
   v <- py_getitem_str first "value" ;;
   py_int lib v)%res.

Definition get_fear_greed_index (self : BTCAccumulationBot) : M Z :=
  try_except
    (response <- call_requests_get env "https://api.alternative.me/fng/" 10 ;;
     match response with
     | Timeout => raise RequestsTimeout
     | RequestException => raise RequestsException
     | OtherException => raise OtherError
     | Response ok payload =>
         if negb ok then raise RequestsException       (* [raise_for_status] *)
         else
           match payload with
           | None => raise RequestsException           (* [response.json()] *)
           | Some data =>
               fear_greed_value <- lift (fear_greed_value data) ;;
               logging INFO "Fear & Greed Index" [AInt fear_greed_value] ;;;
               ret fear_greed_value
           end
     end)%M
    (fun e =>
       match e with
       | RequestsTimeout =>
           logging WARNING "Fear & Greed Index timeout - using neutral value" [] ;;;
           ret 50
       | RequestsException =>
           logging WARNING "Fear & Greed Index network error - using neutral value"
                   [AExn e] ;;;
           ret 50
       | KeyError | ValueError | IndexError =>
           logging WARNING "Fear & Greed Index parse error - using neutral value"
                   [AExn e] ;;;
           ret 50
       | _ =>
           logging WARNING "Fear & Greed Index unexpected error - using neutral value"
                   [AExn e] ;;;
           ret 50
       end)%M.

(** The two logging calls that open [calculate_buy_amount]. *)
Definition log_limits (self : BTCAccumulationBot) : M unit :=
  (logging INFO "calculate_buy_amount::maximum buy amount"
           [AFloat (MAX_WEEKLY_AMOUNT (config self))] ;;;
   logging INFO "calculate_buy_amount::minimum buy amount"
           [AFloat (MIN_WEEKLY_AMOUNT (config self))])%M.

Definition calculate_buy_amount (self : BTCAccumulationBot) : M (float * signal) :=
  try_except
    (log_limits self ;;;
     mayer <- get_mayer_multiple self ;;
     fear_greed <- get_fear_greed_index self ;;
     let '(multiplier, signal) := select_multiplier mayer fear_greed in
     let final_amount := clamp_amount (config self) multiplier in
     logging INFO "calculate_buy_amount:signal" [] ;;;
     logging INFO "Calculated buy amount" [AFloat final_amount; AFloat multiplier] ;;;
     ret (final_amount, signal))%M
    (fun e =>
       logging ERROR "Failed to calculate buy amount" [AExn e] ;;;
       raise e)%M.

(** One pass of the [for balance in balances] loop. *)
Definition parse_balance_item (balance : json) (balance_info : balances)
  : M balances :=
  match balance with
  | JObj fields =>
      let asset_name :=
        match lookup "assetName" fields with Some v => v | None => JNull end in
      let available_balance :=
        match lookup "available" fields with
        | Some v => v
        | None =>
            match lookup "balance" fields with Some v => v | None => JStr "0" end
        end in
      if py_bool asset_name && negb (is_none available_balance) then
        try_except
          (x <- lift (py_float lib available_balance) ;;
           info <- lift (store_balance asset_name x balance_info) ;;
           logging DEBUG "Parsed balance" [AJson asset_name; AJson available_balance] ;;;
           ret info)%M
          (fun e =>
             match e with
             | ValueError | TypeError =>
                 logging WARNING "Could not parse balance for"
                         [AJson asset_name; AJson available_balance; AExn e] ;;;
                 lift (store_balance asset_name 0.0%float balance_info)
             | _ => raise e
             end)%M
      else
        (logging WARNING "Missing required fields in balance item" [AJson balance] ;;;
         ret balance_info)%M
  | _ =>
      (logging WARNING "Unexpected balance item format" [AJson balance] ;;;
       ret balance_info)%M
  end.

Fixpoint parse_balance_items (items : list json) (balance_info : balances)
  : M balances :=
  match items with
  | [] => ret balance_info
  | balance :: rest =>
      (info <- parse_balance_item balance balance_info ;;
       parse_balance_items rest info)%M
  end.

(** The [try] block of [get_account_balance]. *)
Definition get_account_balance_try (self : BTCAccumulationBot) : M balances :=
    (balances <- get_account_balances lib env (client self) ;;
     c <- lift (error_shaped balances) ;;
     if c then
       d <- lift (py_get balances "error" balances) ;;
       raise (Exception_ (BalanceApiError d))
     else
       match balances with
       | JArr items =>
           balance_info <- parse_balance_items items [] ;;
           logging INFO "Successfully parsed account balances"
                   [AInt (Z.of_nat (List.length balance_info))] ;;;
           logging DEBUG "Balances" [] ;;;
           ret balance_info
       | _ =>
           logging ERROR "Unexpected balance response format" [AJson balances] ;;;
           ret []
       end)%M.

Definition get_account_balance (self : BTCAccumulationBot) : M balances :=
  try_except
    (get_account_balance_try self)
    (fun e =>
       logging ERROR "Error getting account balance" [AExn e] ;;;
       logging ERROR "Exception type" [AExn e] ;;;
       ret [])%M.

Definition execute_buy_order (self : BTCAccumulationBot) (amount_aud : float)
  : M order_result :=
  if (amount_aud <? MIN_WEEKLY_AMOUNT (config self))%float then
    (logging INFO "Amount below minimum, skipping"
             [AFloat amount_aud; AFloat (MIN_WEEKLY_AMOUNT (config self))] ;;;
     ret (Failure AmountBelowMinimum))%M
  else
    try_except
      (balances <- get_account_balance self ;;
       let aud_balance :=
         match balances_get (KStr "AUD") balances with
         | Some v => v
         | None => 0%float
         end in
       if (aud_balance <? amount_aud)%float then
         logging WARNING "Insufficient AUD balance" [AFloat aud_balance; AFloat amount_aud] ;;;
         ret (Failure (InsufficientBalance aud_balance))
       else
         current_price <- get_current_price self ;;
         btc_amount <- lift (py_truediv amount_aud current_price) ;;
         logging INFO "Placing market buy order" [AFloat btc_amount; AFloat amount_aud] ;;;
         order_result <- place_market_buy_order lib env (client self) (market_id self)
                           (format_8f lib btc_amount) ;;
         c <- lift (error_shaped order_result) ;;
         if c then
           status <- lift (py_get order_result "statusCode" JNull) ;;
           error_msg <- lift (py_get order_result "error"
                                (JStr ("HTTP " ++ str_of_json lib status))) ;;
           logging ERROR "Order failed" [AJson error_msg] ;;;
           ret (Failure (OrderError error_msg))
         else
           order_id <- lift (py_get order_result "orderId" (JStr "N/A")) ;;
           order_status <- lift (py_get order_result "status" (JStr "Unknown")) ;;
           logging INFO "Order placed successfully!" [] ;;;
           logging INFO "Order ID" [AJson order_id] ;;;
           logging INFO "Status" [AJson order_status] ;;;
           logging INFO "Amount" [AFloat btc_amount] ;;;
           logging INFO "Estimated Cost" [AFloat amount_aud] ;;;
           logging INFO "Price" [AFloat current_price] ;;;
           ret (Success btc_amount amount_aud order_id order_status
                        current_price order_result))%M
      (fun e =>
         logging ERROR "Order execution error" [AExn e] ;;;
         ret (Failure (ExceptionText e)))%M.

Definition get_portfolio_summary (self : BTCAccumulationBot) : M (option portfolio) :=
  try_except
    (balances <- get_account_balance self ;;
     current_price <- get_current_price self ;;
     let btc_balance :=
       match balances_get (KStr "BTC") balances with Some v => v | None => 0%float end in
     let aud_balance :=
       match balances_get (KStr "AUD") balances with Some v => v | None => 0%float end in
     let btc_value_aud := (btc_balance * current_price)%float in
     let total_portfolio := (btc_value_aud + aud_balance)%float in
     ret (Some {| btc_balance := btc_balance;
                  btc_value_aud := btc_value_aud;
                  aud_balance := aud_balance;
                  total_portfolio_aud := total_portfolio;
                  current_btc_price := current_price |}))%M
    (fun e =>
       logging ERROR "Error getting portfolio summary" [AExn e] ;;;
       ret None)%M.

Definition test_api_connection (self : BTCAccumulationBot) : M bool :=
  try_except
    (logging INFO "Testing API connection..." [] ;;;
     ticker <- get_ticker lib env (client self) (market_id self) ;;
     c <- lift (error_shaped ticker) ;;
     if c then
       logging ERROR "Public API test failed" [AJson ticker] ;;;
       ret false
     else
       balances <- get_account_balances lib env (client self) ;;
       c' <- lift (error_shaped balances) ;;
       if c' then
         logging ERROR "Private API test failed" [AJson balances] ;;;
         ret false
       else
         match balances with
         | JArr (_ :: _ as items) =>
             logging INFO "API connection test successful"
                     [AInt (Z.of_nat (List.length items))]
         | _ => logging WARNING "API connection successful but no balances found" []
         end ;;;
         ret true)%M
    (fun e =>
       logging ERROR "API connection test failed" [AExn e] ;;;
       ret false)%M.

Definition log_portfolio (title : string) (p : option portfolio) : M unit :=
  match p with
  | Some p =>
      logging INFO title
              [AFloat (btc_balance p); AFloat (btc_value_aud p);
               AFloat (aud_balance p); AFloat (total_portfolio_aud p)]
  | None => ret tt
  end.

(** [run]: the [result] of the order, when one was attempted, is returned
    for observation (the source method returns [None]). *)
Definition run (self : BTCAccumulationBot) : M (option order_result) :=
  (logging INFO "BTC Accumulation Bot v3.1 - FIXED API Integration" [] ;;;
   r <- try_except
     (ok <- test_api_connection self ;;
      if negb ok then raise (Exception_ ApiConnectionTestFailed)
      else
        logging INFO "Calculating market signals..." [] ;;;
        decision <- calculate_buy_amount self ;;
        let '(buy_amount, signal) := decision in
        current_price <- get_current_price self ;;
        logging INFO "Current BTC Price" [AFloat current_price] ;;;
        portfolio <- get_portfolio_summary self ;;
        log_portfolio "CURRENT PORTFOLIO" portfolio ;;;
        attempted <-
          (if F64.gtb buy_amount 0 then
             logging INFO "EXECUTING BUY STRATEGY" [] ;;;
             result <- execute_buy_order self buy_amount ;;
             match result with
             | Success btc_amount aud_amount order_id order_status price _ =>
                 logging INFO "BTC PURCHASE SUCCESSFUL!"
                         [AFloat btc_amount; AFloat aud_amount; AFloat price;
                          AJson order_id; AJson order_status]
             | Failure _ => logging ERROR "BTC PURCHASE FAILED!" []
             end ;;;
             ret (Some result)
           else
             logging INFO "NO PURCHASE TODAY" [] ;;;
             ret None) ;;
        final_portfolio <- get_portfolio_summary self ;;
        log_portfolio "FINAL PORTFOLIO SUMMARY" final_portfolio ;;;
        ret attempted)
     (fun e =>
        logging ERROR "CRITICAL ERROR!" [AExn e] ;;;
        raise e) ;;
   logging INFO "Bot execution completed successfully" [] ;;;
   ret r)%M.

End Bot.

(** ** The statements of the specification, as definitions *)

(** *** The rule table *)

Inductive label :=
| perfect_storm | extreme_oversold_fear | extreme_oversold | undersold_fear
| undersold | fair_value_fear | extreme_bubble | overbought | fair_value.

Definition label_of (s : signal) : label :=
  match s with
  | PerfectStorm _ _ => perfect_storm
  | ExtremeOversoldFear _ _ => extreme_oversold_fear
  | ExtremeOversold _ => extreme_oversold
  | UndersoldFear _ _ => undersold_fear
  | Undersold _ => undersold
  | FairValueFear _ _ => fair_value_fear
  | ExtremeBubble _ => extreme_bubble
  | Overbought _ => overbought
  | FairValue _ => fair_value
  end.

Record rule := {
  condition : float -> Z -> bool;
  rule_multiplier : float;
  rule_label : label
}.

(** The eight conditional rows, in the order of the table. *)
Definition spec_rules : list rule :=
  [ {| condition := fun R S => (R <? 0.8)%float && (S <? 25);
       rule_multiplier := 4.0; rule_label := perfect_storm |};
    {| condition := fun R S => (R <? 0.8)%float && (S <? 35);
       rule_multiplier := 3.5; rule_label := extreme_oversold_fear |};
    {| condition := fun R _ => (R <? 0.8)%float;
       rule_multiplier := 3.0; rule_label := extreme_oversold |};
    {| condition := fun R S => (R <? 1.0)%float && (S <? 30);
       rule_multiplier := 2.5; rule_label := undersold_fear |};
    {| condition := fun R _ => (R <? 1.0)%float;
       rule_multiplier := 1.8; rule_label := undersold |};
    {| condition := fun R S => (R <? 1.2)%float && (S <? 40);
       rule_multiplier := 1.2; rule_label := fair_value_fear |};
    {| condition := fun R _ => (2.4 <? R)%float;
       rule_multiplier := 0.0; rule_label := extreme_bubble |};
    {| condition := fun R _ => (1.6 <? R)%float;
       rule_multiplier := 0.2; rule_label := overbought |} ].

(** First match wins; the last row of the table is the default. *)
Definition spec_first_match (R : float) (S : Z) : float * label :=
  match find (fun r => condition r R S) spec_rules with
  | Some r => (rule_multiplier r, rule_label r)
  | None => (1.0%float, fair_value)
  end.

(** The clamp of the specification: into [[lo, hi]]. *)
Definition spec_clamp (lo hi x : float) : float :=
  if (hi <? x)%float then hi else if (x <? lo)%float then lo else x.

(** *** Signed requests *)

Fixpoint header (name : string) (hs : list (string * string)) : option string :=
  match hs with
  | [] => None
  | (k, v) :: rest => if String.eqb name k then Some v else header name rest
  end.

(** The signature the specification prescribes for a request stamped [now]:
    Base64 of the HMAC-SHA512, under the decoded secret, of method, path,
    timestamp and, when there is one, the serialized body. *)
Definition spec_signature (lib : Library) (key method path now : string)
           (body : option string) : string :=
  b64encode lib
    (hmac_sha512 lib key
       (method ++ path ++ now ++ match body with Some b => b | None => "" end)%string).

(** The fields of an HTTP error body, when it decodes to an object. *)
Definition decoded_object (lib : Library) (body : option string)
  : option (list (string * json)) :=
  match body with
  | Some b =>
      match json_loads lib b with
      | inl (JObj fields) => Some fields
      | _ => None
      end
  | None => None
  end.


(** *** Candles *)

(** A candle as the feed sends it: an array whose entry at index 4, the
    close, converts to a float. *)
Definition close_of (lib : Library) (candle : json) : option float :=
  match candle with
  | JArr items =>
      match nth_error items 4 with
      | Some x => match py_float lib x with Ret c => Some c | Raise _ => None end
      | None => None
      end
  | _ => None
  end.

(** The closes of a feed, in the order of the feed (newest first); [None]
    when some entry is not a candle. *)
Fixpoint closes_of (lib : Library) (candles : list json) : option (list float) :=
  match candles with
  | [] => Some []
  | c :: rest =>
      match close_of lib c, closes_of lib rest with
      | Some x, Some xs => Some (x :: xs)
      | _, _ => None
      end
  end.

(** The data-shortage failures of the indicator computation. *)
Definition insufficient_data (e : exn) : bool :=
  match e with
  | Exception_ NoCandleData | Exception_ (InsufficientPriceData _) => true
  | _ => false
  end.

(** *** Balance entries *)

(** A balance entry as the exchange documents it: an object whose asset name,
    when present, is a string or null, and whose amounts, when present, are
    strings or null. *)
Definition str_or_null (v : option json) : bool :=
  match v with
  | None | Some JNull | Some (JStr _) => true
  | _ => false
  end.

Definition balance_entry (e : json) : bool :=
  match e with
  | JObj fields =>
      str_or_null (lookup "assetName" fields) &&
      str_or_null (lookup "available" fields) &&
      str_or_null (lookup "balance" fields)
  | _ => false
  end.

(** The amount an entry reports: ["available"] when the key is present, else
    ["balance"], else the string ["0"]. *)
Definition spec_amount (fields : list (string * json)) : json :=
  match lookup "available" fields with
  | Some v => v
  | None =>
      match lookup "balance" fields with
      | Some v => v
      | None => JStr "0"
      end
  end.

(** What one entry contributes: nothing without a name or an amount, the
    parsed amount when it parses, zero when it does not. *)
Definition spec_record (lib : Library) (info : balances) (e : json) : balances :=
  match e with
  | JObj fields =>
      match lookup "assetName" fields, spec_amount fields with
      | Some (JStr name), JStr s =>
          if String.eqb name "" then info
          else
            match float_of_string lib s with
            | Some x => balances_set (KStr name) x info
            | None => balances_set (KStr name) 0%float info
            end
      | _, _ => info
      end
  | _ => info
  end.

(** The warning an unparseable amount leaves in the log. *)
Definition parse_warning (name s : string) : log_record :=
  {| log_level := WARNING;
     log_text := "Could not parse balance for";
     log_args := [AJson (JStr name); AJson (JStr s); AExn ValueError] |}.

(** An entry whose amount does not parse. *)
Definition unparseable (lib : Library) (name s : string) (e : json) : Prop :=
  exists fields,
    e = JObj fields /\ lookup "assetName" fields = Some (JStr name) /\
    name <> "" /\ spec_amount fields = JStr s /\ float_of_string lib s = None.

(** *** Secrets *)







(** *** Balance entries of any shape *)












(** ** A concrete runtime and a concrete exchange, for running the model *)

Module Demo.

Definition digit (c : ascii) : option Z :=
  let n := Z.of_nat (nat_of_ascii c) in
  if (48 <=? n) && (n <=? 57) then Some (n - 48) else None.

(** Plain decimal numerals: digits with at most one point, at least one
    digit.  The result is the integer the digits spell and the number of
    digits after the point. *)
Fixpoint decimal (s : string) (acc : Z) (seen : bool) (frac : option nat)
  : option (Z * nat) :=
  match s with
  | EmptyString =>
      if seen then Some (acc, match frac with Some k => k | None => O end) else None
  | String c s' =>
      if Ascii.eqb c "." then
        match frac with
        | None => decimal s' acc seen (Some O)
        | Some _ => None
        end
      else
        match digit c with
        | Some d => decimal s' (10 * acc + d) true (option_map S frac)
        | None => None
        end
  end.

Definition unsigned (s : string) : string * bool :=
  match s with
  | String c s' => if Ascii.eqb c "-" then (s', true) else (s, false)
  | EmptyString => (s, false)
  end.

(** [int(s)] on an optional minus sign followed by digits. *)
Definition parse_int (s : string) : option Z :=
  let '(body, neg) := unsigned s in
  match decimal body 0 false None with
  | Some (n, O) =>
      if substringb "." body then None else Some (if neg then - n else n)
  | _ => None
  end.

(** [float(s)] on plain decimal numerals: the quotient of two exactly
    represented integers, rounded once. *)
Definition parse_float (s : string) : option float :=
  let '(body, neg) := unsigned s in
  match decimal body 0 false None with
  | Some (n, k) =>
      match F64.of_Z n, F64.of_Z (10 ^ Z.of_nat k) with
      | Some a, Some b => Some (if neg then - (a / b) else a / b)%float
      | _, _ => None
      end
  | None => None
  end.

(** The mean as a plain left-to-right sum over the count. *)
Definition mean (xs : list float) : float :=
  match F64.of_Z (Z.of_nat (List.length xs)) with
  | Some n => (fold_left PrimFloat.add xs 0 / n)%float
  | None => nan
  end.

(** Symbolic stand-ins for the encoder and the MAC: every result is a term
    that names the operation and its operands.  The decoder is CPython's. *)
Definition encode (s : string) : string := ("b64(" ++ s ++ ")")%string.

Definition mac (key message : string) : string :=
  ("hmac-sha512(" ++ key ++ "," ++ message ++ ")")%string.

Definition quote (s : string) : string :=
  (String (ascii_of_nat 34) s ++ String (ascii_of_nat 34) "")%string.

Fixpoint join (sep : string) (xs : list string) : string :=
  match xs with
  | [] => ""
  | [x] => x
  | x :: rest => (x ++ sep ++ join sep rest)%string
  end.

(** A serializer for trees of strings, integers, booleans and null (no
    escapes; floats print as [<float>]). *)
Fixpoint dumps (item_sep key_sep : string) (v : json) : string :=
  match v with
  | JNull => "null"
  | JBool b => if b then "true" else "false"
  | JInt z => string_of_Z z
  | JFloat _ => "<float>"
  | JStr s => quote s
  | JArr items => ("[" ++ join item_sep (map (dumps item_sep key_sep) items) ++ "]")%string
  | JObj fields =>
      ("{" ++ join item_sep
                (map (fun kv => (quote (fst kv) ++ key_sep ++ dumps item_sep key_sep (snd kv))%string)
                     fields) ++ "}")%string
  end.

Definition candle : json :=
  JArr [JStr "2024-01-01T00:00:00.000000Z"; JStr "99000"; JStr "101000";
        JStr "98000"; JStr "100000"; JStr "12.5"].

Definition bad_entry : json :=
  JObj [("assetName", JStr "BTC"); ("balance", JStr "0.5"); ("available", JStr "n/a")].

Definition balance_list : list json :=
  [ JObj [("assetName", JStr "AUD"); ("balance", JStr "5000"); ("available", JStr "4000");
          ("locked", JStr "1000")];
    bad_entry;
    JObj [("assetName", JStr "ETH"); ("balance", JStr "1.5")] ].

(** Response bodies, by name, and the trees they decode to. *)
Definition bodies : list (string * json) :=
  [ ("ticker", JObj [("marketId", JStr "BTC-AUD"); ("lastPrice", JStr "75000")]);
    ("candles", JArr (repeat candle 60));
    ("few-candles", JArr (repeat candle 10));
    ("balances", JArr balance_list);
    ("order", JObj [("orderId", JStr "7524"); ("status", JStr "Accepted")]);
    ("denied", JObj [("code", JStr "AuthenticationFailed"); ("message", JStr "denied")]) ].

Definition loads (body : string) : json + string :=
  match lookup body bodies with
  | Some v => inl v
  | None => inr "Expecting value"
  end.

Definition lib : Library :=
  {| b64decode := a2b_base64;
     b64encode := encode;
     hmac_sha512 := mac;
     json_dumps := dumps;
     json_loads := loads;
     float_of_string := parse_float;
     int_of_string := parse_int;
     np_mean := mean;
     format_8f := fun _ => "0.00100000";
     str_of_json := dumps ", " ": " |}.

(** An exchange that answers the ticker and the order endpoint, and answers
    the candle and balance endpoints as told. *)
Definition exchange (candles balances : transport_outcome) (r : http_request)
  : transport_outcome :=
  if substringb "/ticker" (url r) then Responded 200 "ticker"
  else if substringb "/candles" (url r) then candles
  else if substringb "/balances" (url r) then balances
  else if substringb "/v3/orders" (url r) then Responded 200 "order"
  else RaisedHTTPError 404 "Not Found" None.

Definition fng (value : json) : requests_outcome :=
  Response true (Some (JObj [("name", JStr "Fear and Greed Index");
                             ("data", JArr [JObj [("value", value);
                                                  ("value_classification", JStr "Fear")]])])).

Definition environment (candles balances : transport_outcome) (sentiment : requests_outcome)
  : Environment :=
  {| time_time := fun k =>
       match F64.of_Z (Z.of_nat k) with
       | Some d => (1730000000.5 + d)%float
       | None => 1730000000.5%float
       end;
     urlopen := fun _ => exchange candles balances;
     requests_get := fun _ _ _ => sentiment |}.

Definition env : Environment :=
  environment (Responded 200 "candles") (Responded 200 "balances") (fng (JStr "20")).

(** The same exchange when it refuses the balance request. *)
Definition locked_out : Environment :=
  environment (Responded 200 "candles")
              (RaisedHTTPError 401 "Unauthorized" (Some "denied")) (fng (JStr "20")).

Definition settings : Config :=
  {| BTCMARKETS_API_KEY := Some "key-id";
     BTCMARKETS_PRIVATE_KEY := Some "c2VjcmV0";
     BASE_WEEKLY_AMOUNT := 500;
     MAX_WEEKLY_AMOUNT := 2000;
     MIN_WEEKLY_AMOUNT := 100 |}.

Definition signer : BTCMarketsClient :=
  {| base_url := "https://api.btcmarkets.net";
     api_key := "key-id";
     private_key := "secret" |}.

Definition bot : BTCAccumulationBot :=
  {| config := settings; client := signer;
     market_id := "BTC-AUD"; min_btc_order := 0.001 |}.

Definition start : World := {| clock := O; net := O; sent := []; log := [] |}.

End Demo.

(** ** Observations on runs *)

Definition is_get (r : http_request) : bool := String.eqb (method r) "GET".

(** Only GET requests have been sent so far. *)
Definition all_get (w : World) : Prop := forallb is_get (sent w) = true.

(** A computation that sends nothing but GET requests. *)
Definition read_only {A : Type} (c : M A) : Prop :=
  forall w, all_get w -> all_get (snd (c w)).

(** A computation that returns from every world. *)
Definition never_raises {A : Type} (c : M A) : Prop :=
  forall w, exists a w', c w = (Ret a, w').

(** A computation that leaves the network alone. *)
Definition offline {A : Type} (c : M A) : Prop :=
  forall w, net (snd (c w)) = net w /\ sent (snd (c w)) = sent w.

(** The transport did not deliver an answer. *)
Definition failed (o : transport_outcome) : bool :=
  match o with
  | Responded _ _ => false
  | _ => true
  end.

(** The sentiment fetch did not deliver a payload. *)
Definition no_payload (o : requests_outcome) : bool :=
  match o with
  | Response true (Some _) => false
  | _ => true
  end.

(** The asset an entry names, when it names one. *)
Definition asset_of (e : json) : option string :=
  match e with
  | JObj fields =>
      match lookup "assetName" fields with
      | Some (JStr name) => Some name
      | _ => None
      end
  | _ => None
  end.

Definition names_asset (name : string) (e : json) : bool :=
  match asset_of e with
  | Some n => String.eqb n name
  | None => false
  end.

(** The request a call through [__make_http_call] builds when the clock
    reads [now] milliseconds. *)
Definition built_request (lib : Library) (self : BTCMarketsClient)
           (method apiKey privateKey path : string) (q : option string)
           (payload : option json) (now : string) : http_request :=
  let body := option_map (json_dumps lib "," ":") payload in
  {| url := (base_url self ++ match q with
                              | None => path
                              | Some query => path ++ "?" ++ query
                              end)%string;
     headers := [ ("Accept", "application/json");
                  ("Accept-Charset", "UTF-8");
                  ("Content-Type", "application/json");
                  ("BM-AUTH-APIKEY", apiKey);
                  ("BM-AUTH-TIMESTAMP", now);
                  ("BM-AUTH-SIGNATURE", spec_signature lib privateKey method path now body);
                  ("User-Agent", "BTC-Accumulation-Bot/2.0") ];
     method := method;
     data := request_body method body |}.

(** The world once a request has gone out: one more reading of the clock, one
    more network call, one more request in the trace. *)
Definition after_request (w : World) (req : http_request) : World :=
  {| clock := S (clock w); net := S (net w);
     sent := sent w ++ [req]; log := log w |}.

(** The AUD balance [execute_buy_order] reads off the parsed balances. *)
Definition aud_of (b : balances) : float :=
  match balances_get (KStr "AUD") b with
  | Some v => v
  | None => 0%float
  end.

Definition btc_of (b : balances) : float :=
  match balances_get (KStr "BTC") b with
  | Some v => v
  | None => 0%float
  end.

(** The portfolio the balances and a price make up. *)
Definition summary_of (b : balances) (price : float) : portfolio :=
  {| btc_balance := btc_of b;
     btc_value_aud := (btc_of b * price)%float;
     aud_balance := aud_of b;
     total_portfolio_aud := (btc_of b * price + aud_of b)%float;
     current_btc_price := price |}.

(** The world in which [execute_buy_order] submits its order: the price has
    been fetched and the order announced in the log. *)
Definition announced (w : World) (btc_amount amount_aud : float) : World :=
  logged w {| log_level := INFO; log_text := "Placing market buy order";
              log_args := [AFloat btc_amount; AFloat amount_aud] |}.

(** What [execute_buy_order] makes of the answer to its order. *)
Definition order_outcome (lib : Library) (fields : list (string * json))
           (btc_amount amount_aud price : float) : order_result :=
  match lookup "error" fields, lookup "statusCode" fields with
  | Some err, _ => Failure (OrderError err)
  | None, Some code => Failure (OrderError (JStr ("HTTP " ++ str_of_json lib code)))
  | None, None =>
      Success btc_amount amount_aud
              (match lookup "orderId" fields with Some v => v | None => JStr "N/A" end)
              (match lookup "status" fields with Some v => v | None => JStr "Unknown" end)
              price (JObj fields)
  end.

(** The worlds in which [test_api_connection] and [run] start their work. *)
Definition probing (w : World) : World :=
  logged w {| log_level := INFO; log_text := "Testing API connection...";
              log_args := [] |}.

Definition started (w : World) : World :=
  logged w {| log_level := INFO;
              log_text := "BTC Accumulation Bot v3.1 - FIXED API Integration";
              log_args := [] |}.

(** ** Further runtimes and exchanges, for running the model *)

Definition with_mean (m : list float -> float) (lib : Library) : Library :=
  {| b64decode := b64decode lib;
     b64encode := b64encode lib;
     hmac_sha512 := hmac_sha512 lib;
     json_dumps := json_dumps lib;
     json_loads := json_loads lib;
     float_of_string := float_of_string lib;
     int_of_string := int_of_string lib;
     np_mean := m;
     format_8f := format_8f lib;
     str_of_json := str_of_json lib |}.

Definition with_loads (l : string -> json + string) (lib : Library) : Library :=
  {| b64decode := b64decode lib;
     b64encode := b64encode lib;
     hmac_sha512 := hmac_sha512 lib;
     json_dumps := json_dumps lib;
     json_loads := l;
     float_of_string := float_of_string lib;
     int_of_string := int_of_string lib;
     np_mean := np_mean lib;
     format_8f := format_8f lib;
     str_of_json := str_of_json lib |}.

Module Scenario.

(** A runtime whose mean is not a number, as numpy's is once a close is. *)
Definition nan_mean : Library := with_mean (fun _ => nan) Demo.lib.

(** A balance list that names AUD twice. *)
Definition twice : list json :=
  [ JObj [("assetName", JStr "AUD"); ("available", JStr "1")];
    JObj [("assetName", JStr "BTC"); ("available", JStr "3")];
    JObj [("assetName", JStr "AUD"); ("available", JStr "2")] ].

(** A balance list with an entry whose asset name is a list. *)
Definition odd : list json :=
  [ JObj [("assetName", JStr "AUD"); ("available", JStr "4000")];
    JObj [("assetName", JArr [JStr "BTC"]); ("available", JStr "1")] ].

Definition loads (body : string) : json + string :=
  if String.eqb body "twice" then inl (JArr twice)
  else if String.eqb body "odd" then inl (JArr odd)
  else Demo.loads body.

Definition lib : Library := with_loads loads Demo.lib.

(** An exchange that cannot be reached at all. *)
Definition unreachable : Environment :=
  {| time_time := time_time Demo.env;
     urlopen := fun _ _ => RaisedURLError "timed out";
     requests_get := requests_get Demo.env |}.

(** An exchange that answers the balance request only. *)
Definition no_ticker : Environment :=
  {| time_time := time_time Demo.env;
     urlopen := fun _ r =>
       if substringb "/balances" (url r) then Responded 200 "balances"
       else RaisedURLError "timed out";
     requests_get := requests_get Demo.env |}.

(** The exchange of [Demo.env] with a server error on the candle feed. *)
Definition candles_down : Environment :=
  Demo.environment (RaisedHTTPError 500 "Internal Server Error" None)
                   (Responded 200 "balances") (Demo.fng (JStr "20")).

(** The exchange of [Demo.env] while the sentiment index times out. *)
Definition sentiment_down : Environment :=
  Demo.environment (Responded 200 "candles") (Responded 200 "balances") Timeout.

(** A bot whose minimum exceeds its maximum. *)
Definition inverted : BTCAccumulationBot :=
  {| config := {| BTCMARKETS_API_KEY := Some "key-id";
                  BTCMARKETS_PRIVATE_KEY := Some "c2VjcmV0";
                  BASE_WEEKLY_AMOUNT := 500;
                  MAX_WEEKLY_AMOUNT := 2000;
                  MIN_WEEKLY_AMOUNT := 3000 |};
     client := Demo.signer;
     market_id := "BTC-AUD"; min_btc_order := 0.001 |}.

End Scenario.

(** * Facts *)

(** ** Binary64: order and rounding *)

Module F64Facts.
Import F64.

Lemma SFcompare_antisym (x y : spec_float) :
  SFcompare y x = option_map CompOpp (SFcompare x y).
Proof.
  destruct x as [sx|sx| |sx mx ex], y as [sy|sy| |sy my ey]; simpl;
    try reflexivity;
    try (destruct sx; reflexivity); try (destruct sy; reflexivity);
    try (destruct sx, sy; reflexivity).
  rewrite (Z.compare_antisym ey ex).
  destruct sx, sy; simpl; try reflexivity;
    destruct (ey ?= ex); simpl; try reflexivity;
    rewrite (ZC4 my mx); try rewrite CompOpp_involutive; reflexivity.
Qed.

Lemma SFcompare_nan_iff (x y : spec_float) :
  SFcompare x y = None <-> sf_is_nan x = true \/ sf_is_nan y = true.
Proof.
  destruct x, y; simpl; split; intros H;
    try discriminate; try tauto; try (left; reflexivity); try (right; reflexivity);
    destruct H; discriminate.
Qed.

Lemma SFltb_false_SFleb (x y : spec_float) :
  sf_is_nan x = false -> sf_is_nan y = false ->
  SFltb x y = false -> SFleb y x = true.
Proof.
  intros Hx Hy. unfold SFltb, SFleb. rewrite (SFcompare_antisym x y).
  destruct (SFcompare x y) as [[ | | ]|] eqn:E; simpl; try congruence.
  apply SFcompare_nan_iff in E. destruct E; congruence.
Qed.

Lemma SFleb_SFltb_false (x y : spec_float) :
  SFleb x y = true -> SFltb y x = false.
Proof.
  unfold SFltb, SFleb. rewrite (SFcompare_antisym x y).
  destruct (SFcompare x y) as [[ | | ]|]; simpl; congruence.
Qed.

Lemma SFleb_refl (x : spec_float) : sf_is_nan x = false -> SFleb x x = true.
Proof.
  unfold SFleb. destruct x as [s|s| |s m e]; simpl; try congruence;
    try (destruct s; reflexivity).
  intros _. rewrite Z.compare_refl, Pos.compare_cont_refl.
  destruct s; reflexivity.
Qed.

Lemma SFleb_not_nan (x y : spec_float) :
  SFleb x y = true -> sf_is_nan x = false /\ sf_is_nan y = false.
Proof. unfold SFleb. destruct x, y; simpl; intros; split; congruence. Qed.

Lemma SFltb_not_nan (x y : spec_float) :
  SFltb x y = true -> sf_is_nan x = false /\ sf_is_nan y = false.
Proof. unfold SFltb. destruct x, y; simpl; intros; split; congruence. Qed.

Lemma SFltb_zero_pos (s : bool) (x : spec_float) :
  SFltb (S754_zero s) x = sf_is_pos x.
Proof. unfold SFltb. destruct x as [?|[|]| |[|] ? ?]; reflexivity. Qed.


(** Comparing against a zero does not see the zero's sign. *)
Lemma SFltb_zero_r (s s' : bool) (x : spec_float) :
  SFltb x (S754_zero s) = SFltb x (S754_zero s').
Proof. unfold SFltb. destruct x; reflexivity. Qed.

(** Rounding never yields NaN: shifting and rounding to nearest-even keep a
    non-negative mantissa non-negative. *)
Lemma iter_pos_invariant {A : Type} (P : A -> Prop) (f : A -> A) :
  (forall a, P a -> P (f a)) ->
  forall (n : positive) (a : A), P a -> P (iter_pos f n a).
Proof.
  intros Hf. induction n as [n IH|n IH|]; intros a Ha; simpl.
  - apply IH, IH, Hf, Ha.
  - apply IH, IH, Ha.
  - apply Hf, Ha.
Qed.

Lemma shr_1_nonneg (mrs : shr_record) :
  0 <= shr_m mrs -> 0 <= shr_m (shr_1 mrs).
Proof.
  destruct mrs as [m r s]. simpl.
  destruct m as [|[p|p|]|p]; simpl; intros H; lia.
Qed.

Lemma shr_nonneg (mrs : shr_record) (e n : Z) :
  0 <= shr_m mrs -> 0 <= shr_m (fst (shr mrs e n)).
Proof.
  intros H. unfold shr. destruct n as [|p|p]; simpl; try exact H.
  apply (iter_pos_invariant (fun r => 0 <= shr_m r)); [apply shr_1_nonneg|exact H].
Qed.

Lemma shr_fexp_nonneg (prec emax m e : Z) (l : location) :
  0 <= m -> 0 <= shr_m (fst (shr_fexp prec emax m e l)).
Proof.
  intros H. unfold shr_fexp. apply shr_nonneg.
  destruct l as [|[ | | ]]; exact H.
Qed.

Lemma round_nearest_even_nonneg (m : Z) (l : location) :
  0 <= m -> 0 <= round_nearest_even m l.
Proof.
  intros H. unfold round_nearest_even.
  destruct l as [|[ | | ]]; try lia. destruct (Z.even m); lia.
Qed.

Lemma binary_round_aux_not_nan (prec emax : Z) (sx : bool) (mx ex : Z) (lx : location) :
  0 <= mx -> sf_is_nan (binary_round_aux prec emax sx mx ex lx) = false.
Proof.
  intros H. unfold binary_round_aux.
  pose proof (shr_fexp_nonneg prec emax mx ex lx H) as H1.
  destruct (shr_fexp prec emax mx ex lx) as [mrs' e']. simpl in H1.
  pose proof (shr_fexp_nonneg prec emax _ e' loc_Exact
                (round_nearest_even_nonneg _ (loc_of_shr_record mrs') H1)) as H2.
  destruct (shr_fexp prec emax (round_nearest_even (shr_m mrs') (loc_of_shr_record mrs'))
              e' loc_Exact) as [mrs'' e'']. simpl in H2.
  destruct (shr_m mrs'') as [|p|p]; try reflexivity.
  - destruct (e'' <=? emax - prec); reflexivity.
  - lia.
Qed.

Lemma SFmul_fin_not_nan (prec emax : Z) (x y : spec_float) :
  sf_is_fin x = true -> sf_is_fin y = true ->
  sf_is_nan (SFmul prec emax x y) = false.
Proof.
  destruct x as [sx|sx| |sx mx ex], y as [sy|sy| |sy my ey]; simpl;
    try congruence; intros _ _.
  apply binary_round_aux_not_nan. lia.
Qed.

(** A finite value times a zero is a zero. *)
Lemma SFmul_fin_zero (prec emax : Z) (x : spec_float) (s : bool) :
  sf_is_fin x = true -> sf_is_zero (SFmul prec emax x (S754_zero s)) = true.
Proof. destruct x; simpl; congruence. Qed.

(** Anything times a zero is a zero or NaN, hence never strictly positive. *)
Lemma SFmul_zero_not_pos (prec emax : Z) (x : spec_float) (s : bool) :
  sf_is_pos (SFmul prec emax x (S754_zero s)) = false.
Proof. destruct x; reflexivity. Qed.

(** *** The same facts on primitive floats *)

Lemma ltb_false_leb (x y : float) :
  not_nan x -> not_nan y -> (x <? y)%float = false -> (y <=? x)%float = true.
Proof. rewrite ltb_spec, leb_spec. apply SFltb_false_SFleb. Qed.

Lemma leb_ltb_false (x y : float) :
  (x <=? y)%float = true -> (y <? x)%float = false.
Proof. rewrite ltb_spec, leb_spec. apply SFleb_SFltb_false. Qed.

Lemma leb_refl (x : float) : not_nan x -> (x <=? x)%float = true.
Proof. rewrite leb_spec. apply SFleb_refl. Qed.

Lemma leb_not_nan (x y : float) :
  (x <=? y)%float = true -> not_nan x /\ not_nan y.
Proof. rewrite leb_spec. apply SFleb_not_nan. Qed.

Lemma ltb_not_nan (x y : float) :
  (x <? y)%float = true -> not_nan x /\ not_nan y.
Proof. rewrite ltb_spec. apply SFltb_not_nan. Qed.

Lemma is_finite_spec (x : float) :
  is_finite x = true -> sf_is_fin (Prim2SF x) = true.
Proof.
  unfold is_finite, is_nan, is_infinity.
  rewrite !eqb_spec, abs_spec.
  change (Prim2SF infinity) with (S754_infinity false).
  destruct (Prim2SF x) as [s|s| |s m e]; simpl; try reflexivity.
  - unfold SFeqb. destruct s; simpl; rewrite ?orb_true_r; discriminate.
  - unfold SFeqb. simpl. discriminate.
Qed.

Lemma mul_fin_not_nan (x y : float) :
  is_finite x = true -> is_finite y = true -> not_nan (x * y)%float.
Proof.
  intros Hx Hy. unfold not_nan. rewrite mul_spec.
  apply SFmul_fin_not_nan; apply is_finite_spec; assumption.
Qed.

End F64Facts.

(** ** The sizing policy *)

Lemma select_multiplier_first_match (R : float) (S : Z) :
  select_multiplier R S =
    (fst (spec_first_match R S), snd (select_multiplier R S)) /\
  label_of (snd (select_multiplier R S)) = snd (spec_first_match R S).
Proof.
  unfold select_multiplier, spec_first_match, spec_rules, F64.gtb. simpl.
  destruct (R <? 0.8)%float, (R <? 1.0)%float, (R <? 1.2)%float,
    (2.4 <? R)%float, (1.6 <? R)%float,
    (S <? 25), (S <? 35), (S <? 30), (S <? 40); simpl; split; reflexivity.
Qed.

(** Every multiplier of the table is the zero of the bubble row or a
    positive finite number. *)
Lemma select_multiplier_cases (R : float) (S : Z) :
  fst (select_multiplier R S) = 0%float \/
  (F64.gtb (fst (select_multiplier R S)) 0 = true /\
   is_finite (fst (select_multiplier R S)) = true).
Proof.
  unfold select_multiplier, F64.gtb.
  destruct (R <? 0.8)%float, (R <? 1.0)%float, (R <? 1.2)%float,
    (2.4 <? R)%float, (1.6 <? R)%float,
    (S <? 25), (S <? 35), (S <? 30), (S <? 40); simpl;
    first [ left; reflexivity | right; split; reflexivity ].
Qed.

Section Clamp.
Import F64 F64Facts.

(** [max(min(x, hi), lo)] is the clamp of a number into [[lo, hi]]. *)
Lemma py_clamp_bounds (lo hi x : float) :
  (lo <=? hi)%float = true -> not_nan x ->
  py_max (py_min x hi) lo = spec_clamp lo hi x /\
  (lo <=? py_max (py_min x hi) lo)%float = true /\
  (py_max (py_min x hi) lo <=? hi)%float = true.
Proof.
  intros Hle Hx.
  destruct (leb_not_nan _ _ Hle) as [Hlo Hhi].
  unfold py_max, py_min, spec_clamp, gtb.
  destruct (hi <? x)%float eqn:E1.
  - rewrite (leb_ltb_false _ _ Hle).
    repeat split; [exact Hle | apply leb_refl, Hhi].
  - destruct (x <? lo)%float eqn:E2.
    + repeat split; [apply leb_refl, Hlo | exact Hle].
    + repeat split; apply ltb_false_leb; assumption.
Qed.

(** With a zero multiplier the amount is a zero, whatever the band. *)
Lemma clamp_amount_zero (c : Config) :
  is_finite (BASE_WEEKLY_AMOUNT c) = true ->
  (clamp_amount c 0 =? 0)%float = true.
Proof.
  intros Hb. unfold clamp_amount, py_max, py_min, gtb.
  replace (0 <? 0)%float with false by reflexivity.
  set (x := (BASE_WEEKLY_AMOUNT c * 0)%float).
  assert (Hx : sf_is_zero (Prim2SF x) = true).
  { unfold x. rewrite mul_spec. change (Prim2SF 0) with (S754_zero false).
    apply SFmul_fin_zero, is_finite_spec, Hb. }
  destruct (Prim2SF x) as [s| | |] eqn:Ex; try discriminate.
  destruct (MAX_WEEKLY_AMOUNT c <? x)%float eqn:E1.
  - rewrite ltb_spec, Ex, (SFltb_zero_r s false) in E1.
    rewrite ltb_spec. change (Prim2SF 0) with (S754_zero false).
    rewrite E1. reflexivity.
  - rewrite ltb_spec, Ex. change (Prim2SF 0) with (S754_zero false). simpl.
    rewrite eqb_spec, Ex. reflexivity.
Qed.

(** With a zero multiplier the amount is never positive, whatever the base. *)
Lemma clamp_amount_zero_not_pos (c : Config) :
  gtb (clamp_amount c 0) 0 = false.
Proof.
  unfold clamp_amount, py_max, py_min, gtb.
  replace (0 <? 0)%float with false by reflexivity.
  set (x := (BASE_WEEKLY_AMOUNT c * 0)%float).
  assert (Hx : sf_is_pos (Prim2SF x) = false).
  { unfold x. rewrite mul_spec. change (Prim2SF 0) with (S754_zero false).
    apply SFmul_zero_not_pos. }
  destruct (MAX_WEEKLY_AMOUNT c <? x)%float eqn:E1.
  - destruct (MAX_WEEKLY_AMOUNT c <? 0)%float eqn:E2; [reflexivity|].
    rewrite ltb_spec in E1, E2 |- *. change (Prim2SF 0) with (S754_zero false) in *.
    rewrite SFltb_zero_pos.
    destruct (Prim2SF x) as [s| | |]; try discriminate;
      try (destruct (SFltb_not_nan _ _ E1) as [_ ?]; discriminate).
    + rewrite (SFltb_zero_r s false) in E1. congruence.
    + unfold SFltb in E1.
      destruct (Prim2SF (MAX_WEEKLY_AMOUNT c)) as [?|[|]| |[|] ? ?]; simpl in *;
        try discriminate; destruct s; discriminate.
    + destruct s; try discriminate.
      unfold SFltb in E1, E2.
      destruct (Prim2SF (MAX_WEEKLY_AMOUNT c)) as [?|[|]| |[|] ? ?]; simpl in *;
        try discriminate; reflexivity.
  - destruct (x <? 0)%float eqn:E2; [reflexivity|].
    rewrite ltb_spec. change (Prim2SF 0) with (S754_zero false).
    rewrite SFltb_zero_pos. exact Hx.
Qed.

(** With a positive multiplier the amount is never below the minimum. *)
Lemma clamp_amount_not_below (c : Config) (m : float) :
  not_nan (MIN_WEEKLY_AMOUNT c) -> gtb m 0 = true ->
  (clamp_amount c m <? MIN_WEEKLY_AMOUNT c)%float = false.
Proof.
  intros Hmin Hm. unfold clamp_amount. rewrite Hm. unfold py_max, gtb.
  destruct (py_min (BASE_WEEKLY_AMOUNT c * m) (MAX_WEEKLY_AMOUNT c)
            <? MIN_WEEKLY_AMOUNT c)%float eqn:E.
  - apply leb_ltb_false, leb_refl, Hmin.
  - exact E.
Qed.

End Clamp.

(** ** Running the monad *)

Lemma bind_run {A B : Type} (c : M A) (k : A -> M B) (w : World) :
  bind c k w =
    match c w with
    | (Ret a, w') => k a w'
    | (Raise e, w') => (Raise e, w')
    end.
Proof. reflexivity. Qed.

Lemma try_except_run {A : Type} (c : M A) (h : exn -> M A) (w : World) :
  try_except c h w =
    match c w with
    | (Ret a, w') => (Ret a, w')
    | (Raise e, w') => h e w'
    end.
Proof. reflexivity. Qed.

Lemma log_limits_run (self : BTCAccumulationBot) (w : World) :
  log_limits self w = (Ret tt, snd (log_limits self w)).
Proof. reflexivity. Qed.

(** Case analysis on the computation a run is waiting for: the innermost
    scrutinee of the run in hypothesis [H]. *)
Ltac innermost c :=
  lazymatch c with
  | context [match _ with (_, _) => _ end] => fail
  | context [match _ with Ret _ => _ | Raise _ => _ end] => fail
  | context [if _ then _ else _] => fail
  | _ => idtac
  end.

Ltac step_in H :=
  match type of H with
  | context [match ?c with (_, _) => _ end] =>
      innermost c; destruct c as [[?|?] ?] eqn:?
  | context [match ?c with Ret _ => _ | Raise _ => _ end] =>
      innermost c; destruct c eqn:?
  | context [if ?c then _ else _] =>
      innermost c; destruct c eqn:?
  end; cbn beta iota zeta delta [fst snd] in H.

Section Decision.

Variable lib : Library.
Variable env : Environment.

(** Once both indicators are in, [calculate_buy_amount] returns the decision
    of lines 294-327. *)
Lemma calculate_buy_amount_returns (self : BTCAccumulationBot) (w w1 w2 : World)
      (R : float) (S : Z) :
  get_mayer_multiple lib env self (snd (log_limits self w)) = (Ret R, w1) ->
  get_fear_greed_index lib env self w1 = (Ret S, w2) ->
  fst (calculate_buy_amount lib env self w) = Ret (decide (config self) R S).
Proof.
  intros H1 H2. unfold calculate_buy_amount.
  rewrite try_except_run, bind_run, log_limits_run, bind_run, H1, bind_run, H2.
  unfold decide. destruct (select_multiplier R S) as [m s]. reflexivity.
Qed.

(** The first guard of [execute_buy_order] is the only source of the
    below-minimum rejection. *)
Lemma execute_buy_order_guard (self : BTCAccumulationBot) (amount : float) (w : World) :
  (amount <? MIN_WEEKLY_AMOUNT (config self))%float = false ->
  fst (execute_buy_order lib env self amount w) = Ret (Failure AmountBelowMinimum) ->
  False.
Proof.
  intros Hg H. unfold execute_buy_order in H. rewrite Hg in H.
  unfold try_except, bind, ret, lift, logging in H.
  repeat (step_in H; try discriminate).
Qed.

(** What [calculate_buy_amount] returns is a decision of lines 294-327. *)
Lemma calculate_buy_amount_inv (self : BTCAccumulationBot) (w w' : World)
      (a : float) (s : signal) :
  calculate_buy_amount lib env self w = (Ret (a, s), w') ->
  exists R S, (a, s) = decide (config self) R S.
Proof.
  intros H. unfold calculate_buy_amount in H.
  rewrite try_except_run, bind_run, log_limits_run, bind_run in H.
  destruct (get_mayer_multiple lib env self (snd (log_limits self w))) as [[R|e] w1];
    [|discriminate].
  rewrite bind_run in H.
  destruct (get_fear_greed_index lib env self w1) as [[S|e] w2]; [|discriminate].
  exists R, S. unfold decide.
  destruct (select_multiplier R S) as [m sg].
  unfold bind, logging, ret in H. injection H as <- <- _. reflexivity.
Qed.

(** When [run] attempts an order, the amount is the positive amount
    [calculate_buy_amount] returned. *)
Lemma run_order (self : BTCAccumulationBot) (w w' : World) (r : order_result) :
  run lib env self w = (Ret (Some r), w') ->
  exists a s w1 w2 w3 w4,
    calculate_buy_amount lib env self w1 = (Ret (a, s), w2) /\
    F64.gtb a 0 = true /\
    execute_buy_order lib env self a w3 = (Ret r, w4).
Proof.
  intros H. unfold run in H.
  rewrite bind_run in H. unfold logging at 1 in H.
  rewrite bind_run, try_except_run, bind_run in H.
  destruct (test_api_connection lib env self _) as [[[|]|e] w1]; cbn [negb] in H;
    try (unfold raise, bind, logging in H; discriminate).
  rewrite bind_run in H. unfold logging at 1 in H.
  rewrite bind_run in H.
  match type of H with context [calculate_buy_amount lib env self ?w0] =>
    destruct (calculate_buy_amount lib env self w0) as [[[a s]|e] w2] eqn:Ecalc end;
    [|unfold raise, bind, logging in H; discriminate].
  rewrite bind_run in H.
  destruct (get_current_price lib env self w2) as [[p|e] w3];
    [|unfold raise, bind, logging in H; discriminate].
  rewrite bind_run in H. unfold logging at 1 in H.
  rewrite bind_run in H.
  destruct (get_portfolio_summary lib env self _) as [[pf|e] w4];
    [|unfold raise, bind, logging in H; discriminate].
  rewrite bind_run in H.
  assert (Hlp : forall t p w, exists w', log_portfolio t p w = (Ret tt, w')).
  { intros t [q|] w5; eexists; reflexivity. }
  destruct (Hlp "CURRENT PORTFOLIO" pf w4) as [w5 E5]. rewrite E5 in H.
  rewrite bind_run in H.
  destruct (F64.gtb a 0) eqn:Epos.
  - rewrite bind_run in H. unfold logging at 1 in H. rewrite bind_run in H.
    match type of H with context [execute_buy_order lib env self a ?w0] =>
      destruct (execute_buy_order lib env self a w0) as [[r'|e] w6] eqn:Eexec end.
    + exists a, s. do 4 eexists. split; [exact Ecalc|]. split; [exact Epos|].
      rewrite Eexec. f_equal. f_equal.
      rewrite bind_run in H.
      assert (Hl : exists w7, (match r' with
             | Success btc_amount aud_amount order_id order_status price _ =>
                 logging INFO "BTC PURCHASE SUCCESSFUL!"
                   [AFloat btc_amount; AFloat aud_amount; 
                    AFloat price; AJson order_id; AJson order_status]
             | Failure _ => logging ERROR "BTC PURCHASE FAILED!" []
             end) w6 = (Ret tt, w7)).
      { destruct r'; eexists; reflexivity. }
      destruct Hl as [w7 E7]. rewrite E7 in H.
      unfold ret at 1 in H. rewrite bind_run in H.
      destruct (get_portfolio_summary lib env self w7) as [[pf'|e] w8];
        [|unfold raise, bind, logging in H; discriminate].
      rewrite bind_run in H.
      destruct (Hlp "FINAL PORTFOLIO SUMMARY" pf' w8) as [w9 E9]. rewrite E9 in H.
      unfold ret, bind, logging in H. injection H as <- _. reflexivity.
    + unfold raise, bind, logging in H. discriminate.
  - rewrite bind_run in H. unfold logging at 1 in H. unfold ret at 1 in H.
    rewrite bind_run in H.
    destruct (get_portfolio_summary lib env self _) as [[pf'|e] w8];
        [|unfold raise, bind, logging in H; discriminate].
    rewrite bind_run in H.
    destruct (Hlp "FINAL PORTFOLIO SUMMARY" pf' w8) as [w9 E9]. rewrite E9 in H.
    unfold ret, bind, logging in H. discriminate.
Qed.

End Decision.

(** ** The sizing claims *)

Section SizingClaims.
Import F64 F64Facts.

Lemma pos_not_zero (m : float) :
  (0 <? m)%float = true -> (m =? 0)%float = false.
Proof.
  rewrite ltb_spec, eqb_spec. change (Prim2SF 0) with (S754_zero false).
  rewrite SFltb_zero_pos. unfold SFeqb.
  destruct (Prim2SF m) as [?|[|]| |[|] ? ?]; simpl; congruence.
Qed.

(** C1.  The sizing decision is a first match over the ordered rule table:
    whatever ratio [R] and sentiment [S] the indicators deliver,
    [calculate_buy_amount] returns the multiplier and the label of the first
    row of the table whose condition holds (the last row when none does), and
    the amount it returns is that multiplier applied to the base and clamped.
    For [R = 0.75] and [S = 20] the first and the third row both match, and the
    decision is the first one: multiplier 4.0, perfect storm, and not 3.0. *)
Theorem calculate_buy_amount_first_match
        (lib : Library) (env : Environment) (self : BTCAccumulationBot)
        (w w1 w2 : World) (R : float) (S : Z) :
  get_mayer_multiple lib env self (snd (log_limits self w)) = (Ret R, w1) ->
  get_fear_greed_index lib env self w1 = (Ret S, w2) ->
  (exists amount signal,
      fst (calculate_buy_amount lib env self w) = Ret (amount, signal) /\
      select_multiplier R S = (fst (spec_first_match R S), signal) /\
      label_of signal = snd (spec_first_match R S) /\
      amount = clamp_amount (config self) (fst (spec_first_match R S))) /\
  (R = 0.75%float -> S = 20 ->
   (R <? 0.8)%float && (S <? 25) = true /\
   (R <? 0.8)%float = true /\
   spec_first_match R S = (4.0%float, perfect_storm) /\
   (fst (spec_first_match R S) =? 3.0)%float = false).
Proof.
  intros H1 H2. split.
  - destruct (select_multiplier_first_match R S) as [Hm Hl].
    exists (clamp_amount (config self) (fst (spec_first_match R S))),
           (snd (select_multiplier R S)).
    repeat split; try assumption.
    rewrite (calculate_buy_amount_returns lib env self w w1 w2 R S H1 H2).
    unfold decide. rewrite Hm. reflexivity.
  - intros -> ->. repeat split.
Qed.

Lemma calculate_buy_amount_first_match_witness :
  exists amount signal,
    fst (calculate_buy_amount Demo.lib Demo.env Demo.bot Demo.start) = Ret (amount, signal) /\
    label_of signal = perfect_storm /\ amount = 2000%float.
Proof.
  edestruct (calculate_buy_amount_first_match Demo.lib Demo.env Demo.bot Demo.start)
    as [(amount & signal & Hr & _ & Hl & Ha) _].
  - vm_compute. reflexivity.
  - vm_compute. reflexivity.
  - exists amount, signal. repeat split; [exact Hr | exact Hl | exact Ha].
Defined.

(** C2.  Whatever the indicators deliver, a zero multiplier yields an amount
    equal to zero whatever the band, and a positive multiplier yields the
    product of base and multiplier clamped into the band, so between the
    minimum and the maximum, provided the minimum does not exceed the maximum
    (the base being a finite number).  With base 500, minimum 100 and maximum
    2000: (0.5, 10) yields 2000, (1.1, 50) yields 500, (2.5, any) yields 0 and
    (1.7, any) yields 100. *)
Theorem calculate_buy_amount_clamped
        (lib : Library) (env : Environment) (self : BTCAccumulationBot)
        (w w1 w2 : World) (R : float) (S : Z) :
  get_mayer_multiple lib env self (snd (log_limits self w)) = (Ret R, w1) ->
  get_fear_greed_index lib env self w1 = (Ret S, w2) ->
  is_finite (BASE_WEEKLY_AMOUNT (config self)) = true ->
  let c := config self in
  let multiplier := fst (select_multiplier R S) in
  (exists amount signal,
      fst (calculate_buy_amount lib env self w) = Ret (amount, signal) /\
      ((multiplier =? 0)%float = true -> (amount =? 0)%float = true) /\
      ((0 <? multiplier)%float = true ->
       (MIN_WEEKLY_AMOUNT c <=? MAX_WEEKLY_AMOUNT c)%float = true ->
       amount = spec_clamp (MIN_WEEKLY_AMOUNT c) (MAX_WEEKLY_AMOUNT c)
                           (BASE_WEEKLY_AMOUNT c * multiplier)%float /\
       (MIN_WEEKLY_AMOUNT c <=? amount)%float = true /\
       (amount <=? MAX_WEEKLY_AMOUNT c)%float = true)) /\
  fst (decide Demo.settings 0.5 10) = 2000%float /\
  fst (decide Demo.settings 1.1 50) = 500%float /\
  (forall S', fst (decide Demo.settings 2.5 S') = 0%float) /\
  (forall S', fst (decide Demo.settings 1.7 S') = 100%float).
Proof.
  intros H1 H2 Hb c multiplier. split; [|repeat split; reflexivity].
  exists (clamp_amount c multiplier), (snd (select_multiplier R S)).
    split; [|split].
    + rewrite (calculate_buy_amount_returns lib env self w w1 w2 R S H1 H2).
      unfold decide, multiplier, c. destruct (select_multiplier R S). reflexivity.
    + intros Hz. destruct (select_multiplier_cases R S) as [E|[E _]]; fold multiplier in E.
      * rewrite E. apply clamp_amount_zero, Hb.
      * apply pos_not_zero in E. congruence.
    + intros Hp Hle. unfold clamp_amount. fold (gtb multiplier 0) in Hp. rewrite Hp.
      apply py_clamp_bounds; [exact Hle|].
      apply mul_fin_not_nan; [exact Hb|].
      destruct (select_multiplier_cases R S) as [E|[_ E]]; fold multiplier in E.
      * rewrite E in Hp. discriminate.
      * exact E.
Qed.

Lemma calculate_buy_amount_clamped_witness :
  exists amount signal,
    fst (calculate_buy_amount Demo.lib Demo.env Demo.bot Demo.start) = Ret (amount, signal) /\
    (100 <=? amount)%float = true /\ (amount <=? 2000)%float = true.
Proof.
  edestruct (calculate_buy_amount_clamped Demo.lib Demo.env Demo.bot Demo.start)
    as [(amount & signal & Hr & _ & Hp) _].
  - vm_compute. reflexivity.
  - vm_compute. reflexivity.
  - reflexivity.
  - exists amount, signal. split; [exact Hr|].
    destruct Hp as (_ & Hlo & Hhi); [reflexivity | reflexivity |].
    split; [exact Hlo | exact Hhi].
Defined.

(** C10.  With [0 < MIN_WEEKLY_AMOUNT <= MAX_WEEKLY_AMOUNT], the amount
    [calculate_buy_amount] returns is zero or at least the minimum (the base
    being a finite number); whenever that amount is positive the guard
    [amount < MIN] of [execute_buy_order] is false and the order is not
    rejected as below the minimum; and the order [run] attempts, which it does
    only for a positive amount, is never rejected as below the minimum. *)
Theorem amount_below_minimum_unreachable
        (lib : Library) (env : Environment) (self : BTCAccumulationBot) :
  (0 <? MIN_WEEKLY_AMOUNT (config self))%float = true ->
  (MIN_WEEKLY_AMOUNT (config self) <=? MAX_WEEKLY_AMOUNT (config self))%float = true ->
  (forall (w w1 w2 : World) (R : float) (S : Z),
      get_mayer_multiple lib env self (snd (log_limits self w)) = (Ret R, w1) ->
      get_fear_greed_index lib env self w1 = (Ret S, w2) ->
      exists amount signal,
        fst (calculate_buy_amount lib env self w) = Ret (amount, signal) /\
        (is_finite (BASE_WEEKLY_AMOUNT (config self)) = true ->
         (amount =? 0)%float = true \/
         (MIN_WEEKLY_AMOUNT (config self) <=? amount)%float = true) /\
        (gtb amount 0 = true ->
         (amount <? MIN_WEEKLY_AMOUNT (config self))%float = false /\
         forall w', fst (execute_buy_order lib env self amount w')
                    <> Ret (Failure AmountBelowMinimum))) /\
  (forall (w w' : World) (r : order_result),
      run lib env self w = (Ret (Some r), w') ->
      r <> Failure AmountBelowMinimum).
Proof.
  intros Hmin Hle.
  assert (Hn : not_nan (MIN_WEEKLY_AMOUNT (config self)))
    by (destruct (ltb_not_nan _ _ Hmin); assumption).
  assert (Hguard : forall R S,
             gtb (clamp_amount (config self) (fst (select_multiplier R S))) 0 = true ->
             (clamp_amount (config self) (fst (select_multiplier R S))
              <? MIN_WEEKLY_AMOUNT (config self))%float = false).
  { intros R S Hp. destruct (select_multiplier_cases R S) as [E|[E _]].
    - rewrite E, clamp_amount_zero_not_pos in Hp. discriminate.
    - apply clamp_amount_not_below; assumption. }
  split.
  - intros w w1 w2 R S H1 H2.
    exists (clamp_amount (config self) (fst (select_multiplier R S))),
           (snd (select_multiplier R S)).
    split; [|split].
    + rewrite (calculate_buy_amount_returns lib env self w w1 w2 R S H1 H2).
      unfold decide. destruct (select_multiplier R S). reflexivity.
    + intros Hb. destruct (select_multiplier_cases R S) as [E|[E F]].
      * left. rewrite E. apply clamp_amount_zero, Hb.
      * right. unfold clamp_amount. rewrite E.
        apply py_clamp_bounds; [exact Hle|].
        apply mul_fin_not_nan; assumption.
    + intros Hp. split; [exact (Hguard R S Hp)|].
      intros w' Hr. exact (execute_buy_order_guard lib env self _ w' (Hguard R S Hp) Hr).
  - intros w w' r Hrun ->.
    destruct (run_order lib env self w w' _ Hrun)
      as (a & s & wa & wb & wc & wd & Hcalc & Hpos & Hexec).
    destruct (calculate_buy_amount_inv lib env self wa wb a s Hcalc) as (R & S & Hd).
    unfold decide in Hd. destruct (select_multiplier R S) as [m sg] eqn:Em.
    injection Hd as -> _.
    replace m with (fst (select_multiplier R S)) in Hpos, Hexec by (rewrite Em; reflexivity).
    apply (execute_buy_order_guard lib env self _ wc (Hguard R S Hpos)).
    rewrite Hexec. reflexivity.
Qed.

Lemma amount_below_minimum_unreachable_witness :
  exists r,
    fst (run Demo.lib Demo.env Demo.bot Demo.start) = Ret (Some r) /\
    r <> Failure AmountBelowMinimum.
Proof.
  destruct (amount_below_minimum_unreachable Demo.lib Demo.env Demo.bot) as [_ H].
  - reflexivity.
  - reflexivity.
  - destruct (run Demo.lib Demo.env Demo.bot Demo.start) as [[[r|]|e] w'] eqn:E;
      try (exfalso; vm_compute in E; discriminate).
    exists r. split; [reflexivity|].
    exact (H Demo.start w' r E).
Defined.

End SizingClaims.

(** ** The exchange client *)

Section ClientClaims.

Variable lib : Library.
Variable env : Environment.

Lemma lookup_dict_set (k : string) (v : json) (fields : list (string * json)) :
  lookup k (dict_set k v fields) = Some v.
Proof.
  induction fields as [|[k' v'] rest IH]; simpl.
  - rewrite String.eqb_refl. reflexivity.
  - destruct (String.eqb k k') eqn:E; simpl; rewrite E; [reflexivity | exact IH].
Qed.

Lemma append_empty (s : string) : (s ++ "")%string = s.
Proof. induction s as [|c s IH]; simpl; [reflexivity | rewrite IH; reflexivity]. Qed.

Lemma append_assoc (a b c : string) : ((a ++ b) ++ c)%string = (a ++ (b ++ c))%string.
Proof. induction a as [|x a IH]; simpl; [reflexivity | rewrite IH; reflexivity]. Qed.

(** The canonical message is method, path, timestamp and body, end to end. *)
Lemma sign_message_spec (key method path now : string) (body : option string) :
  __sign_message lib key (signed_message method path now body) =
  spec_signature lib key method path now body.
Proof.
  unfold __sign_message, signed_message, spec_signature.
  destruct body as [b|]; simpl.
  - rewrite !append_assoc. reflexivity.
  - rewrite append_empty. reflexivity.
Qed.

(** Every handler returns a value and only writes one record to the log. *)
Lemma handle_outcome_run (method path : string) (o : transport_outcome) (w : World) :
  exists v r,
    handle_outcome lib method path o w = (Ret v, logged w r) /\
    match o with
    | Responded code body =>
        match json_loads lib body with
        | inl d => v = d
        | inr text => v = JObj [("error", JStr ("Unexpected error: " ++ text))]
        end
    | RaisedHTTPError code reason body =>
        py_get v "statusCode" JNull = Ret (JInt code) /\
        match decoded_object lib body with
        | Some fields => v = JObj (dict_set "statusCode" (JInt code) fields)
        | None =>
            v = JObj [("error", JStr ("HTTP " ++ string_of_Z code ++ ": " ++ reason));
                      ("statusCode", JInt code)]
        end
    | RaisedURLError reason => v = JObj [("error", JStr ("Network error: " ++ reason))]
    | RaisedException text => v = JObj [("error", JStr ("Unexpected error: " ++ text))]
    end.
Proof.
  destruct o as [code body|code reason body|reason|text]; simpl.
  - destruct (json_loads lib body) as [d|text]; eexists; eexists; split; reflexivity.
  - unfold decoded_object.
    destruct body as [b|]; [destruct (json_loads lib b) as [[ | | | | | |fields]|text]|];
      eexists; eexists; (split; [reflexivity|]); simpl;
      rewrite ?lookup_dict_set; split; reflexivity.
  - eexists; eexists; split; reflexivity.
  - eexists; eexists; split; reflexivity.
Qed.

(** The run of [__make_http_call] once the clock has been read. *)
Lemma make_http_call_run (self : BTCMarketsClient)
      (method apiKey privateKey path : string) (q : option string)
      (payload : option json) (w : World) (ms : Z) :
  py_int_of_float (time_time env (clock w) * 1000)%float = Ret ms ->
  let now := string_of_Z ms in
  let body := option_map (json_dumps lib "," ":") payload in
  exists req v r,
    __make_http_call lib env self method apiKey privateKey path q payload w =
      (Ret v,
       logged {| clock := S (clock w); net := S (net w);
                 sent := sent w ++ [req]; log := log w |} r) /\
    header "BM-AUTH-APIKEY" (headers req) = Some apiKey /\
    header "BM-AUTH-TIMESTAMP" (headers req) = Some now /\
    header "BM-AUTH-SIGNATURE" (headers req) =
      Some (spec_signature lib privateKey method path now body) /\
    data req = request_body method body /\
    handle_outcome lib method path (urlopen env (net w) req)
      {| clock := S (clock w); net := S (net w);
         sent := sent w ++ [req]; log := log w |} =
      (Ret v,
       logged {| clock := S (clock w); net := S (net w);
                 sent := sent w ++ [req]; log := log w |} r).
Proof.
  intros Hc now body.
  unfold __make_http_call, ___build_headers.
  unfold bind at 1. unfold bind at 1. unfold read_clock at 1.
  unfold bind at 1. unfold lift at 1. rewrite Hc.
  cbn beta iota zeta. unfold ret at 1. cbn beta iota zeta.
  unfold bind at 1. unfold call_urlopen at 1. cbn beta iota zeta.
  cbn [clock net sent log].
  match goal with
  | |- context [handle_outcome lib method path ?o ?w0] =>
      destruct (handle_outcome_run method path o w0) as (v & r & Hv & _)
  end.
  eexists; exists v, r. split; [exact Hv|].
  repeat split; try reflexivity.
  - cbn [headers header String.eqb Ascii.eqb Bool.eqb]. simpl.
    rewrite sign_message_spec. reflexivity.
  - exact Hv.
Qed.

End ClientClaims.

Section ClientTheorems.

Variable lib : Library.
Variable env : Environment.

(** C3.  For a client built from the key identifier and the Base64 secret,
    every call made through [__make_http_call] reads the clock exactly once
    and hands [urlopen] one request whose signature header is the Base64
    encoding of the HMAC-SHA512, keyed by the decoded secret, of method, path
    and millisecond timestamp followed by the compact serialization of the
    body when there is one; whose timestamp header is the very string that
    was signed; and whose transmitted body, for POST and PUT, is the very
    serialization that was signed. *)
Theorem signed_request
        (key_id secret : string) (self : BTCMarketsClient)
        (method path : string) (q : option string) (payload : option json)
        (w : World) (ms : Z) :
  BTCMarketsClient__init__ lib key_id secret = Ret self ->
  py_int_of_float (time_time env (clock w) * 1000)%float = Ret ms ->
  let now := string_of_Z ms in
  let body := option_map (json_dumps lib "," ":") payload in
  exists key req v w',
    b64decode lib secret = Some key /\
    __make_http_call lib env self method (api_key self) (private_key self)
                     path q payload w = (Ret v, w') /\
    clock w' = S (clock w) /\
    sent w' = (sent w ++ [req])%list /\
    header "BM-AUTH-APIKEY" (headers req) = Some key_id /\
    header "BM-AUTH-TIMESTAMP" (headers req) = Some now /\
    header "BM-AUTH-SIGNATURE" (headers req) =
      Some (spec_signature lib key method path now body) /\
    data req = request_body method body.
Proof.
  intros Hi Hc now body.
  unfold BTCMarketsClient__init__, base64_b64decode in Hi.
  destruct (is_ascii secret); [|discriminate].
  destruct (b64decode lib secret) as [key|] eqn:Hk; simpl in Hi; [|discriminate].
  injection Hi as <-. cbn [api_key private_key].
  destruct (make_http_call_run lib env
              {| base_url := "https://api.btcmarkets.net"; api_key := key_id;
                 private_key := key |}
              method key_id key path q payload w ms Hc)
    as (req & v & r & Hrun & Hk1 & Ht & Hs & Hd & _).
  exists key, req, v. eexists. split; [reflexivity|].
  split; [exact Hrun|].
  repeat split; assumption.
Qed.

(** C4.  Whatever the transport does, [__make_http_call] returns a value:
    after a 2xx answer the decoded body (or an error object when the body does
    not decode); after an HTTP error a dict that carries the numeric status
    under ['statusCode'], namely the decoded error object with that key added,
    or [{'error': 'HTTP code: reason', 'statusCode': code}] when the error body
    is unreadable or does not decode to an object; after a network failure or
    any other exception an error object with a descriptive message.  (The
    clock reading is assumed finite.) *)
Theorem make_http_call_errors_as_values
        (self : BTCMarketsClient) (method apiKey privateKey path : string)
        (q : option string) (payload : option json) (w : World) (ms : Z) :
  py_int_of_float (time_time env (clock w) * 1000)%float = Ret ms ->
  exists v w' req,
    __make_http_call lib env self method apiKey privateKey path q payload w
      = (Ret v, w') /\
    sent w' = (sent w ++ [req])%list /\
    match urlopen env (net w) req with
    | Responded code body =>
        match json_loads lib body with
        | inl d => v = d
        | inr text => v = JObj [("error", JStr ("Unexpected error: " ++ text))]
        end
    | RaisedHTTPError code reason body =>
        py_get v "statusCode" JNull = Ret (JInt code) /\
        match decoded_object lib body with
        | Some fields => v = JObj (dict_set "statusCode" (JInt code) fields)
        | None =>
            v = JObj [("error", JStr ("HTTP " ++ string_of_Z code ++ ": " ++ reason));
                      ("statusCode", JInt code)]
        end
    | RaisedURLError reason => v = JObj [("error", JStr ("Network error: " ++ reason))]
    | RaisedException text => v = JObj [("error", JStr ("Unexpected error: " ++ text))]
    end.
Proof.
  intros Hc.
  destruct (make_http_call_run lib env self method apiKey privateKey path q payload w ms Hc)
    as (req & v & r & Hrun & _ & _ & _ & _ & Hh).
  exists v. eexists. exists req. split; [exact Hrun|]. split; [reflexivity|].
  destruct (handle_outcome_run lib method path (urlopen env (net w) req)
              {| clock := S (clock w); net := S (net w);
                 sent := sent w ++ [req]; log := log w |})
    as (v' & r' & Hv' & Hshape).
  rewrite Hh in Hv'. injection Hv' as -> _. exact Hshape.
Qed.


End ClientTheorems.

Lemma signed_request_witness :
  let payload := JObj [("marketId", JStr "BTC-AUD"); ("amount", JStr "0.00100000");
                       ("type", JStr "Market"); ("side", JStr "Bid")] in
  let body := Demo.dumps "," ":" payload in
  exists req v w',
    place_market_buy_order Demo.lib Demo.env Demo.signer "BTC-AUD" "0.00100000"
                           Demo.start = (Ret v, w') /\
    sent w' = [req] /\
    header "BM-AUTH-TIMESTAMP" (headers req) = Some "1730000000500" /\
    header "BM-AUTH-SIGNATURE" (headers req) =
      Some (Demo.encode (Demo.mac "secret"
                                  ("POST/v3/orders1730000000500" ++ body))) /\
    data req = Some body.
Proof.
  intros payload body.
  destruct (signed_request Demo.lib Demo.env "key-id" "c2VjcmV0" Demo.signer "POST" "/v3/orders"
                           None (Some payload) Demo.start 1730000000500)
    as (key & req & v & w' & Hk & Hrun & _ & Hs & _ & Ht & Hsig & Hd).
  - reflexivity.
  - vm_compute. reflexivity.
  - injection Hk as <-.
    exists req, v, w'. repeat split; assumption.
Defined.

Lemma make_http_call_errors_as_values_witness :
  let unauthorized := RaisedHTTPError 401 "Unauthorized" (Some "denied") in
  fst (get_account_balances Demo.lib
         (Demo.environment (Responded 200 "candles") unauthorized (Demo.fng (JStr "20")))
         Demo.signer Demo.start)
  = Ret (JObj [("code", JStr "AuthenticationFailed"); ("message", JStr "denied");
               ("statusCode", JInt 401)]).
Proof.
  intros unauthorized.
  destruct (make_http_call_errors_as_values
              Demo.lib
              (Demo.environment (Responded 200 "candles") unauthorized
                                (Demo.fng (JStr "20")))
              Demo.signer "GET" "key-id" "secret" "/v3/accounts/me/balances"
              (Some "") None Demo.start 1730000000500)
    as (v & w' & req & Hrun & Hs & Hshape).
  - vm_compute. reflexivity.
  - unfold get_account_balances. cbn [api_key private_key Demo.signer].
    assert (E : fst (__make_http_call Demo.lib
                       (Demo.environment (Responded 200 "candles") unauthorized
                                         (Demo.fng (JStr "20")))
                       Demo.signer "GET" "key-id" "secret"
                       "/v3/accounts/me/balances" (Some "") None Demo.start)
                = Ret (JObj [("code", JStr "AuthenticationFailed");
                             ("message", JStr "denied"); ("statusCode", JInt 401)]))
      by (vm_compute; reflexivity).
    rewrite Hrun in E |- *. exact E.
Defined.

(** ** The secret *)

Section Secret.







End Secret.





(** ** The sentiment index *)



(** ** The price ratio *)

Section Candles.

Variable lib : Library.

Lemma res_map_length {A B : Type} (f : A -> res B) (xs : list A) (ys : list B) :
  res_map f xs = Ret ys -> List.length ys = List.length xs.
Proof.
  revert ys. induction xs as [|x xs IH]; simpl; intros ys H.
  - injection H as <-. reflexivity.
  - destruct (f x) as [y|e]; simpl in H; [|discriminate].
    destruct (res_map f xs) as [ys'|e]; simpl in H; [|discriminate].
    injection H as <-. simpl. rewrite (IH ys' eq_refl). reflexivity.
Qed.

Lemma res_map_app {A B : Type} (f : A -> res B) (xs xs' : list A) (ys ys' : list B) :
  res_map f xs = Ret ys -> res_map f xs' = Ret ys' ->
  res_map f (xs ++ xs')%list = Ret (ys ++ ys')%list.
Proof.
  revert ys. induction xs as [|x xs IH]; simpl; intros ys H H'.
  - injection H as <-. exact H'.
  - destruct (f x) as [y|e]; simpl in H |- *; [|discriminate].
    destruct (res_map f xs) as [zs|e]; simpl in H; [|discriminate].
    injection H as <-. rewrite (IH zs eq_refl H'). reflexivity.
Qed.

Lemma res_map_rev {A B : Type} (f : A -> res B) (xs : list A) (ys : list B) :
  res_map f xs = Ret ys -> res_map f (rev xs) = Ret (rev ys).
Proof.
  revert ys. induction xs as [|x xs IH]; simpl; intros ys H.
  - injection H as <-. reflexivity.
  - destruct (f x) as [y|e] eqn:Ey; simpl in H; [|discriminate].
    destruct (res_map f xs) as [zs|e]; simpl in H; [|discriminate].
    injection H as <-. simpl.
    apply res_map_app; [apply IH; reflexivity|].
    simpl. rewrite Ey. reflexivity.
Qed.

(** The close of a candle is what the comprehension extracts from it. *)
Lemma close_of_getitem (candle : json) (x : float) :
  close_of lib candle = Some x ->
  (v <- py_getitem_int candle 4 ;; py_float lib v)%res = Ret x.
Proof.
  unfold close_of. destruct candle as [ | | | | |items| ]; try discriminate.
  destruct (nth_error items 4) as [v|] eqn:En; [|discriminate].
  destruct (py_float lib v) as [c|e] eqn:Ef; [|discriminate].
  intros H. injection H as <-.
  assert (Hl : (4 < List.length items)%nat)
    by (apply nth_error_Some; congruence).
  unfold py_getitem_int, seq_index.
  replace (4 <? 0) with false by reflexivity.
  replace (Z.of_nat (List.length items) <=? 4) with false
    by (symmetry; apply Z.leb_gt; lia).
  cbn [orb res_bind]. change (Z.to_nat 4) with 4%nat. rewrite En.
  cbn [of_option res_bind]. exact Ef.
Qed.

Lemma closes_of_res_map (candles : list json) (closes : list float) :
  closes_of lib candles = Some closes ->
  res_map (fun candle => v <- py_getitem_int candle 4 ;; py_float lib v)%res candles
  = Ret closes.
Proof.
  revert closes. induction candles as [|c rest IH]; simpl; intros closes H.
  - injection H as <-. reflexivity.
  - destruct (close_of lib c) as [x|] eqn:Ec; [|discriminate].
    destruct (closes_of lib rest) as [xs|]; [|discriminate].
    injection H as <-.
    rewrite (close_of_getitem c x Ec). simpl. rewrite (IH xs eq_refl). reflexivity.
Qed.

Lemma closes_of_length (candles : list json) (closes : list float) :
  closes_of lib candles = Some closes -> List.length closes = List.length candles.
Proof.
  revert closes. induction candles as [|c rest IH]; simpl; intros closes H.
  - injection H as <-. reflexivity.
  - destruct (close_of lib c); [|discriminate].
    destruct (closes_of lib rest) as [xs|]; [|discriminate].
    injection H as <-. simpl. rewrite (IH xs eq_refl). reflexivity.
Qed.

(** A feed of candles is not error-shaped: no entry is a string. *)
Lemma closes_of_not_error_shaped (candles : list json) (closes : list float) :
  closes_of lib candles = Some closes -> error_shaped (JArr candles) = Ret false.
Proof.
  intros H. unfold error_shaped, py_contains. simpl.
  assert (E : forall s, existsb (is_str s) candles = false).
  { intros s. revert closes H. induction candles as [|c rest IH]; simpl; intros closes H.
    - reflexivity.
    - destruct (close_of lib c) eqn:Ec; [|discriminate].
      destruct (closes_of lib rest) as [xs|]; [|discriminate].
      rewrite (IH xs eq_refl).
      destruct c; try discriminate. reflexivity. }
  rewrite !E. reflexivity.
Qed.

(** The comprehension reverses the feed and takes each close. *)
Lemma closing_prices_rev (candles : list json) (closes : list float) :
  closes_of lib candles = Some closes ->
  closing_prices lib (JArr candles) = Ret (rev closes).
Proof.
  intros H. unfold closing_prices. simpl.
  apply res_map_rev, closes_of_res_map, H.
Qed.

(** The last [k] of the reversed feed are the first [k] of the feed, in
    chronological order. *)
Lemma slice_last_rev {A : Type} (k : nat) (xs : list A) :
  (0 < k <= List.length xs)%nat ->
  slice_last k (rev xs) = rev (firstn k xs).
Proof.
  intros [Hk Hn]. unfold slice_last. destruct k as [|k']; [lia|].
  rewrite length_rev, skipn_rev. f_equal. f_equal. lia.
Qed.

End Candles.

(** C5.  When the feed returns a list of candles, newest first,
    [get_mayer_multiple] never computes on fewer than 50 of them: it raises.
    When every entry is a candle, the prices it works on are the closes (index
    4) in chronological order, the reverse of the feed; with fewer than 50 it
    raises a data-shortage condition ("No candle data received" for an empty
    feed, "Insufficient price data: only n days available" otherwise); with 50
    or more it returns the current price divided by the mean of the most
    recent [min(200, count)] closes. *)
Theorem get_mayer_multiple_spec
        (lib : Library) (env : Environment) (self : BTCAccumulationBot)
        (w w1 : World) (candles : list json) :
  get_candles lib env (client self) (market_id self) "1d" 200 w
    = (Ret (JArr candles), w1) ->
  let n := List.length candles in
  ((n < 50)%nat -> exists e w', get_mayer_multiple lib env self w = (Raise e, w')) /\
  forall closes : list float,
    closes_of lib candles = Some closes ->
    closing_prices lib (JArr candles) = Ret (rev closes) /\
    ((n < 50)%nat ->
     exists e w',
       get_mayer_multiple lib env self w = (Raise e, w') /\
       insufficient_data e = true /\
       e = match n with
           | O => Exception_ NoCandleData
           | _ => Exception_ (InsufficientPriceData n)
           end) /\
    ((50 <= n)%nat ->
     forall (p : float) (w2 : World),
       get_current_price lib env self w1 = (Ret p, w2) ->
       fst (get_mayer_multiple lib env self w)
       = Ret (p / np_mean lib (rev (firstn (Nat.min 200 n) closes)))%float).
Proof.
  intros Hc n.
  assert (En : n = List.length candles) by reflexivity. clearbody n.
  assert (Hnc : no_candles (JArr candles) = Ret (Nat.eqb n 0)).
  { unfold no_candles, py_bool, py_len. subst n. destruct candles; reflexivity. }
  split.
  - intros Hn.
    unfold get_mayer_multiple, try_except, bind. rewrite Hc.
    unfold lift, raise, ret, logging.
    destruct (error_shaped (JArr candles)) as [[|]|e0]; simpl;
      try (eexists; eexists; reflexivity).
    rewrite Hnc. destruct (Nat.eqb n 0); [eexists; eexists; reflexivity|].
    destruct (closing_prices lib (JArr candles)) as [prices|e0] eqn:Ep;
      [|eexists; eexists; reflexivity].
    assert (Hl : List.length prices = n).
    { unfold closing_prices in Ep. simpl in Ep.
      apply res_map_length in Ep. rewrite Ep, length_rev. congruence. }
    rewrite Hl. replace (n <? 50)%nat with true by (symmetry; apply Nat.ltb_lt, Hn).
    eexists; eexists; reflexivity.
  - intros closes Hcl.
    pose proof (closing_prices_rev lib candles closes Hcl) as Hp.
    pose proof (closes_of_not_error_shaped lib candles closes Hcl) as Hes.
    pose proof (closes_of_length lib candles closes Hcl) as Hlc.
    assert (Hl : List.length (rev closes) = n)
      by (rewrite length_rev; congruence).
    split; [exact Hp|]. split.
    + intros Hn.
      unfold get_mayer_multiple, try_except, bind. rewrite Hc.
      unfold lift, raise, ret, logging. rewrite Hes, Hnc.
      destruct n as [|n'].
      * eexists; eexists. split; [reflexivity|]. split; reflexivity.
      * cbn [Nat.eqb]. rewrite Hp, Hl.
        replace (S n' <? 50)%nat with true by (symmetry; apply Nat.ltb_lt, Hn).
        eexists; eexists. split; [reflexivity|]. split; reflexivity.
    + intros Hn p w2 Hprice.
      unfold get_mayer_multiple, try_except, bind. rewrite Hc.
      unfold lift, raise, ret, logging. rewrite Hes, Hnc.
      replace (Nat.eqb n 0) with false by (symmetry; apply Nat.eqb_neq; lia).
      rewrite Hp, Hl.
      replace (n <? 50)%nat with false by (symmetry; apply Nat.ltb_ge, Hn).
      rewrite Hprice. cbn [fst].
      rewrite slice_last_rev; [reflexivity | lia].
Qed.

Lemma get_mayer_multiple_spec_witness :
  fst (get_mayer_multiple Demo.lib Demo.env Demo.bot Demo.start)
  = Ret (75000 / Demo.mean (repeat 100000%float 60))%float.
Proof.
  edestruct (get_mayer_multiple_spec Demo.lib Demo.env Demo.bot Demo.start)
    as [_ H].
  - vm_compute. reflexivity.
  - destruct (H (repeat 100000%float 60)) as (_ & _ & Hm).
    + vm_compute. reflexivity.
    + cbv zeta in Hm. erewrite Hm.
      * reflexivity.
      * simpl. lia.
      * vm_compute. reflexivity.
Defined.

(** ** Balances *)

Section Balances.

Variable lib : Library.
Variable env : Environment.

(** One pass of the loop over a balance entry does what the specification
    says of the entry, and writes one record to the log: the parse warning
    when the amount does not parse. *)
Lemma parse_balance_item_spec (e : json) (info : balances) (w : World) :
  balance_entry e = true ->
  exists r,
    parse_balance_item lib e info w = (Ret (spec_record lib info e), logged w r) /\
    forall name s, unparseable lib name s e -> r = parse_warning name s.
Proof.
  destruct e as [ | | | | | |fields]; try discriminate. intros He.
  unfold balance_entry in He. apply andb_prop in He as [He Hb].
  apply andb_prop in He as [Hn Ha].
  assert (Hamount : exists s, spec_amount fields = JNull \/ spec_amount fields = JStr s).
  { unfold spec_amount.
    destruct (lookup "available" fields) as [[ | | | |s| | ]|]; try discriminate;
      try (exists ""; left; reflexivity); try (exists s; right; reflexivity).
    destruct (lookup "balance" fields) as [[ | | | |s| | ]|]; try discriminate;
      try (exists ""; left; reflexivity); try (exists s; right; reflexivity).
    exists "0". right. reflexivity. }
  unfold parse_balance_item, spec_record.
  fold (spec_amount fields).
  destruct Hamount as [s [Hs|Hs]]; rewrite Hs.
  - (* the amount is null *)
    rewrite andb_false_r. eexists. split.
    + destruct (lookup "assetName" fields) as [[ | | | | | | ]|]; reflexivity.
    + intros name s' (fields' & Ef & _ & _ & Hs' & _).
      injection Ef as <-. congruence.
  - destruct (lookup "assetName" fields) as [[ | | | |name| | ]|] eqn:En;
      try discriminate; cbn [py_bool andb is_none negb];
      try (eexists; split;
           [reflexivity
           |intros name' s' (fields' & Ef & Hn' & _); injection Ef as <-; congruence]).
    destruct (String.eqb name "") eqn:Ee; cbn [negb andb].
    + eexists. split; [reflexivity|].
      intros name' s' (fields' & Ef & Hn' & Hne & _). injection Ef as <-.
      rewrite En in Hn'. injection Hn' as <-.
      apply String.eqb_eq in Ee. contradiction.
    + unfold try_except, bind, lift, py_float, store_balance, logging, ret.
      destruct (float_of_string lib s) as [x|] eqn:Ef; simpl.
      * eexists. split; [reflexivity|].
        intros name' s' (fields' & Ef' & _ & _ & Hs' & Hf). injection Ef' as <-.
        rewrite Hs in Hs'. injection Hs' as <-. congruence.
      * eexists. split; [reflexivity|].
        intros name' s' (fields' & Ef' & Hn' & _ & Hs' & _). injection Ef' as <-.
        rewrite Hs in Hs'. injection Hs' as <-.
        rewrite En in Hn'. injection Hn' as <-. reflexivity.
Qed.

Lemma parse_balance_items_spec (items : list json) (info : balances) (w : World) :
  forallb balance_entry items = true ->
  exists w' rs,
    parse_balance_items lib items info w
    = (Ret (fold_left (spec_record lib) items info), w') /\
    log w' = (log w ++ rs)%list /\
    forall e name s, In e items -> unparseable lib name s e ->
                     In (parse_warning name s) rs.
Proof.
  revert info w. induction items as [|e rest IH]; intros info w Hall.
  - exists w, []. split; [reflexivity|]. split; [symmetry; apply app_nil_r|].
    intros e name s [].
  - simpl in Hall. apply andb_prop in Hall as [He Hrest].
    destruct (parse_balance_item_spec e info w He) as (r & Hr & Hw).
    destruct (IH (spec_record lib info e) (logged w r) Hrest) as (w' & rs & Hrun & Hlog & Hin).
    exists w', (r :: rs). split; [|split].
    + cbn [parse_balance_items fold_left]. rewrite bind_run, Hr. exact Hrun.
    + rewrite Hlog. simpl. rewrite <- app_assoc. reflexivity.
    + intros e' name s [<-|Hi] Hu.
      * left. apply Hw, Hu.
      * right. exact (Hin e' name s Hi Hu).
Qed.

(** A list of balance entries is not error-shaped: no entry is a string. *)
Lemma balance_entries_not_error_shaped (items : list json) :
  forallb balance_entry items = true -> error_shaped (JArr items) = Ret false.
Proof.
  intros Hall. unfold error_shaped, py_contains. simpl.
  assert (E : forall s, existsb (is_str s) items = false).
  { intros s. induction items as [|e rest IH]; simpl; [reflexivity|].
    simpl in Hall. apply andb_prop in Hall as [He Hrest].
    rewrite (IH Hrest). destruct e; try discriminate. reflexivity. }
  rewrite !E. reflexivity.
Qed.

End Balances.

Section Entries.

Variable lib : Library.
Variable env : Environment.








End Entries.




(** C9.  [get_account_balance] never raises.  It returns the empty mapping
    whenever its [try] block raises, in particular when the response of the
    exchange is error-shaped or is not a list.  After such a failure
    [execute_buy_order], called with a positive amount that passes the minimum
    guard, reads the AUD balance as 0 and returns the failure "Insufficient
    balance" instead of raising. *)
Theorem get_account_balance_never_raises
        (lib : Library) (env : Environment) (self : BTCAccumulationBot) (w : World) :
  (exists d w', get_account_balance lib env self w = (Ret d, w')) /\
  (forall e w1,
      get_account_balance_try lib env self w = (Raise e, w1) ->
      fst (get_account_balance lib env self w) = Ret []) /\
  (forall resp w0,
      get_account_balances lib env (client self) w = (Ret resp, w0) ->
      error_shaped resp = Ret true \/ (forall items, resp <> JArr items) ->
      fst (get_account_balance lib env self w) = Ret []) /\
  (forall amount : float,
      (amount <? MIN_WEEKLY_AMOUNT (config self))%float = false ->
      (0 <? amount)%float = true ->
      fst (get_account_balance lib env self w) = Ret [] ->
      fst (execute_buy_order lib env self amount w)
      = Ret (Failure (InsufficientBalance 0))).
Proof.
  assert (Hraise : forall e w1,
             get_account_balance_try lib env self w = (Raise e, w1) ->
             fst (get_account_balance lib env self w) = Ret []).
  { intros e w1 H. unfold get_account_balance. rewrite try_except_run, H. reflexivity. }
  split; [|split; [exact Hraise|split]].
  - unfold get_account_balance. rewrite try_except_run.
    destruct (get_account_balance_try lib env self w) as [[d|e] w1].
    + exists d, w1. reflexivity.
    + eexists; eexists. reflexivity.
  - intros resp w0 Hb Hshape.
    destruct (get_account_balance_try lib env self w) as [[d|e] w1] eqn:Etry;
      [|exact (Hraise e w1 eq_refl)].
    unfold get_account_balance. rewrite try_except_run, Etry. cbn [fst].
    unfold get_account_balance_try in Etry.
    rewrite bind_run, Hb, bind_run in Etry. unfold lift at 1 in Etry.
    destruct Hshape as [Hs|Hs].
    + rewrite Hs in Etry. cbn beta iota in Etry.
      rewrite bind_run in Etry. unfold lift at 1 in Etry.
      destruct (py_get resp "error" resp); discriminate.
    + destruct (error_shaped resp) as [[|]|e]; cbn beta iota in Etry.
      * rewrite bind_run in Etry. unfold lift at 1 in Etry.
        destruct (py_get resp "error" resp); discriminate.
      * destruct resp as [ | | | | |items| ];
          try (injection Etry as <- _; reflexivity).
        exfalso. exact (Hs items eq_refl).
      * discriminate.
  - intros amount Hg Hpos Hempty.
    unfold execute_buy_order. rewrite Hg, try_except_run, bind_run.
    destruct (get_account_balance lib env self w) as [r w1].
    cbn [fst] in Hempty. subst r.
    cbn [balances_get]. rewrite Hpos. reflexivity.
Qed.

Lemma get_account_balance_never_raises_witness :
  fst (execute_buy_order Demo.lib Demo.locked_out Demo.bot 2000 Demo.start)
  = Ret (Failure (InsufficientBalance 0)).
Proof.
  destruct (get_account_balance_never_raises Demo.lib Demo.locked_out Demo.bot Demo.start)
    as (_ & _ & Hshape & Horder).
  apply Horder; [reflexivity | reflexivity |].
  eapply Hshape.
  - vm_compute. reflexivity.
  - left. reflexivity.
Defined.

(** * Further properties of the bot *)

(** ** Order on binary64, continued *)

Module F64Order.
Import F64 F64Facts.

Lemma SFleb_SFltb_trans (x y z : spec_float) :
  SFleb x y = true -> SFltb y z = true -> SFltb x z = true.
Proof.
  unfold SFleb, SFltb.
  destruct x as [sx|sx| |sx mx ex], y as [sy|sy| |sy my ey], z as [sz|sz| |sz mz ez];
    simpl; try discriminate;
    try (destruct sx; simpl; try discriminate; try reflexivity; fail);
    try (destruct sx, sy; simpl; try discriminate; try reflexivity; fail);
    try (destruct sy, sz; simpl; try discriminate; try reflexivity; fail);
    try (destruct sx, sz; simpl; try discriminate; try reflexivity; fail);
    try (destruct sx, sy, sz; simpl; try discriminate; try reflexivity; fail).
  all: destruct sx, sy, sz; simpl; try discriminate; try reflexivity.
  all: rewrite ?Pos.compare_cont_spec; simpl;
    destruct (Z.compare_spec ex ey), (Z.compare_spec ey ez), (Z.compare_spec ex ez);
    simpl; try discriminate; try reflexivity; try lia; subst;
    destruct (Pos.compare_spec mx my), (Pos.compare_spec my mz), (Pos.compare_spec mx mz);
    simpl; try discriminate; try reflexivity; try lia.
Qed.

Lemma SFltb_SFleb_trans (x y z : spec_float) :
  SFltb x y = true -> SFleb y z = true -> SFltb x z = true.
Proof.
  unfold SFleb, SFltb.
  destruct x as [sx|sx| |sx mx ex], y as [sy|sy| |sy my ey], z as [sz|sz| |sz mz ez];
    simpl; try discriminate;
    try (destruct sx; simpl; try discriminate; try reflexivity; fail);
    try (destruct sx, sy; simpl; try discriminate; try reflexivity; fail);
    try (destruct sy, sz; simpl; try discriminate; try reflexivity; fail);
    try (destruct sx, sz; simpl; try discriminate; try reflexivity; fail);
    try (destruct sx, sy, sz; simpl; try discriminate; try reflexivity; fail).
  all: destruct sx, sy, sz; simpl; try discriminate; try reflexivity.
  all: rewrite ?Pos.compare_cont_spec; simpl;
    destruct (Z.compare_spec ex ey), (Z.compare_spec ey ez), (Z.compare_spec ex ez);
    simpl; try discriminate; try reflexivity; try lia; subst;
    destruct (Pos.compare_spec mx my), (Pos.compare_spec my mz), (Pos.compare_spec mx mz);
    simpl; try discriminate; try reflexivity; try lia.
Qed.

Lemma leb_ltb_trans (x y z : float) :
  (x <=? y)%float = true -> (y <? z)%float = true -> (x <? z)%float = true.
Proof. rewrite !ltb_spec, leb_spec. apply SFleb_SFltb_trans. Qed.

Lemma ltb_leb_trans (x y z : float) :
  (x <? y)%float = true -> (y <=? z)%float = true -> (x <? z)%float = true.
Proof. rewrite !ltb_spec, leb_spec. apply SFltb_SFleb_trans. Qed.

Lemma ltb_nan_l (x y : float) : is_nan x = true -> (x <? y)%float = false.
Proof.
  unfold is_nan. rewrite eqb_spec, ltb_spec. unfold SFeqb, SFltb.
  destruct (Prim2SF x) as [s|s| |s m e]; simpl.
  - discriminate.
  - destruct s; discriminate.
  - reflexivity.
  - rewrite Z.compare_refl, Pos.compare_cont_refl. destruct s; discriminate.
Qed.

Lemma ltb_nan_r (x y : float) : is_nan y = true -> (x <? y)%float = false.
Proof.
  unfold is_nan. rewrite eqb_spec, ltb_spec. unfold SFeqb, SFltb.
  destruct (Prim2SF y) as [s|s| |s m e]; simpl.
  - discriminate.
  - destruct s; discriminate.
  - destruct (Prim2SF x); reflexivity.
  - rewrite Z.compare_refl, Pos.compare_cont_refl. destruct s; discriminate.
Qed.

End F64Order.

(** ** What a run sends *)

Section ReadOnly.

Variable lib : Library.
Variable env : Environment.

Lemma read_only_ret {A : Type} (a : A) : read_only (ret a).
Proof. intros w H. exact H. Qed.

Lemma read_only_raise {A : Type} (e : exn) : read_only (@raise A e).
Proof. intros w H. exact H. Qed.

Lemma read_only_lift {A : Type} (c : res A) : read_only (lift c).
Proof. intros w H. exact H. Qed.

Lemma read_only_logging (l : level) (text : string) (args : list logarg) :
  read_only (logging l text args).
Proof. intros w H. exact H. Qed.

Lemma read_only_bind {A B : Type} (c : M A) (k : A -> M B) :
  read_only c -> (forall a, read_only (k a)) -> read_only (bind c k).
Proof.
  intros Hc Hk w H. unfold bind. specialize (Hc w H).
  destruct (c w) as [[a|e] w1]; simpl in Hc |- *.
  - apply Hk, Hc.
  - exact Hc.
Qed.

Lemma read_only_try_except {A : Type} (c : M A) (h : exn -> M A) :
  read_only c -> (forall e, read_only (h e)) -> read_only (try_except c h).
Proof.
  intros Hc Hh w H. unfold try_except. specialize (Hc w H).
  destruct (c w) as [[a|e] w1]; simpl in Hc |- *.
  - exact Hc.
  - apply Hh, Hc.
Qed.

Lemma read_only_requests_get (u : string) (t : Z) :
  read_only (call_requests_get env u t).
Proof. intros w H. exact H. Qed.

(** The run of [__make_http_call], step by step. *)
Lemma make_http_call_unfold (self : BTCMarketsClient)
      (method apiKey privateKey path : string) (q : option string)
      (payload : option json) (w : World) :
  match py_int_of_float (time_time env (clock w) * 1000)%float with
  | Ret ms =>
      let req := built_request lib self method apiKey privateKey path q payload
                               (string_of_Z ms) in
      __make_http_call lib env self method apiKey privateKey path q payload w
      = handle_outcome lib method path (urlopen env (net w) req) (after_request w req)
  | Raise e =>
      __make_http_call lib env self method apiKey privateKey path q payload w
      = (Raise e, {| clock := S (clock w); net := net w; sent := sent w; log := log w |})
  end.
Proof.
  destruct (py_int_of_float (time_time env (clock w) * 1000)%float) as [ms|e] eqn:Hc.
  - unfold __make_http_call, ___build_headers.
    unfold bind at 1. unfold bind at 1. unfold read_clock at 1.
    unfold bind at 1. unfold lift at 1. rewrite Hc.
    cbn beta iota zeta. unfold ret at 1. cbn beta iota zeta.
    unfold bind at 1. unfold call_urlopen at 1. cbn beta iota zeta.
    cbn [clock net sent log].
    unfold built_request, after_request. rewrite sign_message_spec.
    destruct q; reflexivity.
  - unfold __make_http_call, ___build_headers, bind, read_clock, lift.
    rewrite Hc. reflexivity.
Qed.

(** The handlers only write to the log. *)
Lemma handle_outcome_world (method path : string) (o : transport_outcome) (w : World) :
  exists v r, handle_outcome lib method path o w = (Ret v, logged w r).
Proof.
  destruct (handle_outcome_run lib method path o w) as (v & r & H & _).
  exists v, r. exact H.
Qed.

(** A call through [__make_http_call] sends at most one request, with the
    method it was given. *)
Lemma make_http_call_sent (self : BTCMarketsClient)
      (verb apiKey privateKey path : string) (q : option string)
      (payload : option json) (w : World) :
  let w' := snd (__make_http_call lib env self verb apiKey privateKey path q payload w) in
  sent w' = sent w \/
  exists req, method req = verb /\ sent w' = (sent w ++ [req])%list.
Proof.
  pose proof (make_http_call_unfold self verb apiKey privateKey path q payload w) as H.
  destruct (py_int_of_float (time_time env (clock w) * 1000)%float) as [ms|e].
  - cbv zeta in H. rewrite H.
    match goal with |- context [handle_outcome lib verb path ?o ?w0] =>
      destruct (handle_outcome_world verb path o w0) as (v & r & Hv) end.
    rewrite Hv. right. eexists. split; [|reflexivity]. reflexivity.
  - rewrite H. left. reflexivity.
Qed.

Lemma read_only_make_http_call (self : BTCMarketsClient)
      (apiKey privateKey path : string) (q : option string) (payload : option json) :
  read_only (__make_http_call lib env self "GET" apiKey privateKey path q payload).
Proof.
  intros w H.
  destruct (make_http_call_sent self "GET" apiKey privateKey path q payload w)
    as [E|(req & Hm & E)]; unfold all_get; rewrite E.
  - exact H.
  - rewrite forallb_app, H. simpl. unfold is_get. rewrite Hm. reflexivity.
Qed.

Lemma read_only_get_ticker (self : BTCMarketsClient) (market_id : string) :
  read_only (get_ticker lib env self market_id).
Proof. apply read_only_make_http_call. Qed.

Lemma read_only_get_candles (self : BTCMarketsClient) (market_id tw : string) (limit : Z) :
  read_only (get_candles lib env self market_id tw limit).
Proof. apply read_only_make_http_call. Qed.

Lemma read_only_get_account_balances (self : BTCMarketsClient) :
  read_only (get_account_balances lib env self).
Proof. apply read_only_make_http_call. Qed.

(** One step in the proof that a computation is read-only. *)
Ltac read_only_step :=
  lazymatch goal with
  | |- read_only (bind _ _) => apply read_only_bind; [|intros ?]
  | |- read_only (try_except _ _) => apply read_only_try_except; [|intros ?]
  | |- read_only (ret _) => apply read_only_ret
  | |- read_only (raise _) => apply read_only_raise
  | |- read_only (lift _) => apply read_only_lift
  | |- read_only (logging _ _ _) => apply read_only_logging
  | |- read_only (call_requests_get _ _ _) => apply read_only_requests_get
  | |- read_only (get_ticker _ _ _ _) => apply read_only_get_ticker
  | |- read_only (get_candles _ _ _ _ _ _) => apply read_only_get_candles
  | |- read_only (get_account_balances _ _ _) => apply read_only_get_account_balances
  | |- read_only (if ?b then _ else _) => destruct b
  | |- read_only (match ?x with _ => _ end) => destruct x
  end.

Lemma read_only_get_current_price (self : BTCAccumulationBot) :
  read_only (get_current_price lib env self).
Proof. unfold get_current_price. repeat read_only_step. Qed.

Lemma read_only_get_mayer_multiple (self : BTCAccumulationBot) :
  read_only (get_mayer_multiple lib env self).
Proof.
  unfold get_mayer_multiple.
  repeat first [apply read_only_get_current_price | read_only_step].
Qed.

Lemma read_only_get_fear_greed_index (self : BTCAccumulationBot) :
  read_only (get_fear_greed_index lib env self).
Proof. unfold get_fear_greed_index. repeat read_only_step. Qed.

Lemma read_only_calculate_buy_amount (self : BTCAccumulationBot) :
  read_only (calculate_buy_amount lib env self).
Proof.
  unfold calculate_buy_amount, log_limits.
  repeat first [apply read_only_get_mayer_multiple
               |apply read_only_get_fear_greed_index | read_only_step].
Qed.

Lemma read_only_parse_balance_item (e : json) (info : balances) :
  read_only (parse_balance_item lib e info).
Proof. unfold parse_balance_item. repeat read_only_step. Qed.

Lemma read_only_parse_balance_items (items : list json) (info : balances) :
  read_only (parse_balance_items lib items info).
Proof.
  revert info. induction items as [|e rest IH]; intros info; simpl.
  - apply read_only_ret.
  - apply read_only_bind; [apply read_only_parse_balance_item|intros a; apply IH].
Qed.

Lemma read_only_get_account_balance (self : BTCAccumulationBot) :
  read_only (get_account_balance lib env self).
Proof.
  unfold get_account_balance, get_account_balance_try.
  repeat first [apply read_only_parse_balance_items | read_only_step].
Qed.

Lemma read_only_get_portfolio_summary (self : BTCAccumulationBot) :
  read_only (get_portfolio_summary lib env self).
Proof.
  unfold get_portfolio_summary.
  repeat first [apply read_only_get_account_balance
               |apply read_only_get_current_price | read_only_step].
Qed.

Lemma read_only_test_api_connection (self : BTCAccumulationBot) :
  read_only (test_api_connection lib env self).
Proof. unfold test_api_connection. repeat read_only_step. Qed.

(** X2.  Everything the bot does besides [execute_buy_order] only reads from
    the exchange: the price, ratio and sentiment fetches, the sizing
    decision, the balance and portfolio queries and the connection test
    send nothing but GET requests. *)
Theorem queries_read_only (self : BTCAccumulationBot) :
  read_only (get_current_price lib env self) /\
  read_only (get_mayer_multiple lib env self) /\
  read_only (get_fear_greed_index lib env self) /\
  read_only (calculate_buy_amount lib env self) /\
  read_only (get_account_balance lib env self) /\
  read_only (get_portfolio_summary lib env self) /\
  read_only (test_api_connection lib env self).
Proof.
  repeat split.
  - apply read_only_get_current_price.
  - apply read_only_get_mayer_multiple.
  - apply read_only_get_fear_greed_index.
  - apply read_only_calculate_buy_amount.
  - apply read_only_get_account_balance.
  - apply read_only_get_portfolio_summary.
  - apply read_only_test_api_connection.
Qed.

End ReadOnly.

(** ** Failures on the way to a decision *)

Section Failures.
Import F64 F64Facts.

Variable lib : Library.
Variable env : Environment.

Lemma is_finite_sf (x : float) : is_finite x = sf_is_fin (Prim2SF x).
Proof.
  unfold is_finite, is_nan, is_infinity.
  rewrite !eqb_spec, abs_spec.
  change (Prim2SF infinity) with (S754_infinity false).
  destruct (Prim2SF x) as [s|s| |s m e]; simpl; try reflexivity.
  - unfold SFeqb. destruct s; reflexivity.
  - unfold SFeqb. simpl. rewrite Z.compare_refl, Pos.compare_cont_refl.
    destruct s; reflexivity.
Qed.

Lemma py_int_of_float_finite (f : float) :
  is_finite f = true -> exists z, py_int_of_float f = Ret z.
Proof.
  rewrite is_finite_sf. unfold py_int_of_float, truncate.
  destruct (Prim2SF f); try discriminate; intros _; eexists; reflexivity.
Qed.

Lemma py_int_of_float_not_finite (f : float) :
  is_finite f = false ->
  py_int_of_float f = Raise (if is_nan f then ValueError else OverflowError).
Proof.
  rewrite is_finite_sf. unfold py_int_of_float, truncate.
  destruct (Prim2SF f); try discriminate; intros _; destruct (is_nan f); reflexivity.
Qed.

(** X3.  A call through [__make_http_call] raises only when the clock reading
    is not a finite number: with a finite reading it returns a value after
    exactly one network call; otherwise the exception of [int()] escapes
    from the header construction and nothing is sent. *)
Theorem make_http_call_clock (self : BTCMarketsClient)
        (verb apiKey privateKey path : string) (q : option string)
        (payload : option json) (w : World) :
  let t := (time_time env (clock w) * 1000)%float in
  let r := __make_http_call lib env self verb apiKey privateKey path q payload w in
  if is_finite t then
    exists v req, fst r = Ret v /\ net (snd r) = S (net w) /\
                  sent (snd r) = (sent w ++ [req])%list /\ method req = verb
  else
    fst r = Raise (if is_nan t then ValueError else OverflowError) /\
    net (snd r) = net w /\ sent (snd r) = sent w.
Proof.
  intros t r. subst r.
  pose proof (make_http_call_unfold lib env self verb apiKey privateKey path q payload w) as H.
  fold t in H. destruct (is_finite t) eqn:Ef.
  - destruct (py_int_of_float_finite t Ef) as [ms Hms]. rewrite Hms in H.
    cbv zeta in H. rewrite H.
    match goal with |- context [handle_outcome lib verb path ?o ?w0] =>
      destruct (handle_outcome_world lib verb path o w0) as (v & rc & Hv) end.
    rewrite Hv. exists v. eexists. repeat split.
  - rewrite (py_int_of_float_not_finite t Ef) in H. rewrite H. repeat split.
Qed.

(** A failed transport comes back as an error-shaped object. *)
Lemma handle_outcome_failed (verb path : string) (o : transport_outcome) (w : World) :
  failed o = true ->
  exists fields r,
    handle_outcome lib verb path o w = (Ret (JObj fields), logged w r) /\
    error_shaped (JObj fields) = Ret true.
Proof.
  intros Hf.
  destruct (handle_outcome_run lib verb path o w) as (v & r & Hv & Hs).
  destruct o as [code body|code reason body|reason|text]; try discriminate.
  - destruct Hs as [Hc Hs].
    destruct (decoded_object lib body) as [fields|]; subst v.
    + eexists; eexists. split; [exact Hv|].
      unfold error_shaped, py_contains. cbn [res_bind].
      rewrite lookup_dict_set. destruct (lookup "error" _); reflexivity.
    + eexists; eexists. split; [exact Hv|]. reflexivity.
  - subst v. eexists; eexists. split; [exact Hv|]. reflexivity.
  - subst v. eexists; eexists. split; [exact Hv|]. reflexivity.
Qed.

(** X4.  [get_current_price] returns a price exactly when the ticker is an
    object without ['error'] and ['statusCode'] whose ['lastPrice'] converts
    to a float, and the price is that float; every other answer raises. *)
Theorem get_current_price_spec
        (self : BTCAccumulationBot) (w w1 : World) (ticker : json) (p : float) :
  get_ticker lib env (client self) (market_id self) w = (Ret ticker, w1) ->
  fst (get_current_price lib env self w) = Ret p <->
  exists fields v,
    ticker = JObj fields /\ lookup "error" fields = None /\
    lookup "statusCode" fields = None /\
    lookup "lastPrice" fields = Some v /\ py_float lib v = Ret p.
Proof.
  intros Ht. unfold get_current_price.
  rewrite try_except_run, bind_run, Ht, bind_run. unfold lift at 1.
  split.
  - intros H.
    destruct ticker as [ | | | |s|items|fields];
      try (cbn in H; discriminate).
    + unfold error_shaped, py_contains in H. cbn [res_bind] in H.
      destruct (substringb "error" s); [cbn in H; discriminate|].
      destruct (substringb "statusCode" s); cbn in H; discriminate.
    + unfold error_shaped, py_contains in H. cbn [res_bind] in H.
      destruct (existsb (is_str "error") items); [cbn in H; discriminate|].
      destruct (existsb (is_str "statusCode") items); cbn in H; discriminate.
    + unfold error_shaped, py_contains in H. cbn [res_bind] in H.
      destruct (lookup "error" fields) as [x|] eqn:Ee; [cbn in H; discriminate|].
      destruct (lookup "statusCode" fields) as [x|] eqn:Es; [cbn in H; discriminate|].
      rewrite bind_run in H. unfold lift at 1, py_getitem_str in H.
      destruct (lookup "lastPrice" fields) as [v|] eqn:El; [|cbn in H; discriminate].
      cbn [of_option] in H. rewrite bind_run in H. unfold lift at 1 in H.
      destruct (py_float lib v) as [x|e] eqn:Ef; [|cbn in H; discriminate].
      cbn in H. injection H as <-.
      exists fields, v. repeat split; assumption.
  - intros (fields & v & -> & Ee & Es & El & Ef).
    unfold error_shaped, py_contains. cbn [res_bind]. rewrite Ee, Es.
    rewrite bind_run. unfold lift at 1, py_getitem_str. rewrite El.
    cbn [of_option]. rewrite bind_run. unfold lift at 1. rewrite Ef. reflexivity.
Qed.

(** The run of [get_ticker] on a transport failure. *)
Lemma get_failed (self : BTCMarketsClient) (path : string) (q : option string)
      (w : World) (ms : Z) :
  py_int_of_float (time_time env (clock w) * 1000)%float = Ret ms ->
  let req := built_request lib self "GET" (api_key self) (private_key self)
                           path q None (string_of_Z ms) in
  failed (urlopen env (net w) req) = true ->
  exists fields r,
    __make_http_call lib env self "GET" (api_key self) (private_key self) path q None w
    = (Ret (JObj fields), logged (after_request w req) r) /\
    error_shaped (JObj fields) = Ret true.
Proof.
  intros Hc req Hf.
  pose proof (make_http_call_unfold lib env self "GET" (api_key self) (private_key self)
                                    path q None w) as H.
  rewrite Hc in H. cbv zeta in H. fold req in H. rewrite H.
  apply handle_outcome_failed, Hf.
Qed.

(** X5.  When the transport fails on the ticker request (HTTP error status,
    network error, any other exception), [get_current_price] raises the
    "API Error" exception after that one request. *)
Theorem get_current_price_transport_failure
        (self : BTCAccumulationBot) (w : World) (ms : Z) :
  py_int_of_float (time_time env (clock w) * 1000)%float = Ret ms ->
  failed (urlopen env (net w)
            (built_request lib (client self) "GET" (api_key (client self))
               (private_key (client self))
               ("/v3/markets/" ++ market_id self ++ "/ticker") None None
               (string_of_Z ms))) = true ->
  exists d,
    fst (get_current_price lib env self w) = Raise (Exception_ (ApiError d)) /\
    net (snd (get_current_price lib env self w)) = S (net w).
Proof.
  intros Hc Hf.
  destruct (get_failed (client self) _ None w ms Hc Hf) as (fields & r & Hr & He).
  assert (E : exists d rc,
             get_current_price lib env self w
             = (Raise (Exception_ (ApiError d)),
                logged (logged (after_request w
                  (built_request lib (client self) "GET" (api_key (client self))
                     (private_key (client self))
                     ("/v3/markets/" ++ market_id self ++ "/ticker") None None
                     (string_of_Z ms))) r) rc)).
  { unfold get_current_price, get_ticker.
    rewrite try_except_run, bind_run, Hr, bind_run. unfold lift at 1. rewrite He.
    cbn beta iota. eexists; eexists. reflexivity. }
  destruct E as (d & rc & E). exists d. rewrite E. split; reflexivity.
Qed.

(** X6.  When the candle feed comes back error-shaped, [calculate_buy_amount]
    raises and makes no further network call: neither the ticker nor the
    sentiment index is fetched.  For an error object the exception is the
    "Candles API Error" one. *)
Theorem calculate_buy_amount_candles_error
        (self : BTCAccumulationBot) (w w1 : World) (candles : json) :
  get_candles lib env (client self) (market_id self) "1d" 200 (snd (log_limits self w))
  = (Ret candles, w1) ->
  error_shaped candles = Ret true ->
  (exists e, fst (calculate_buy_amount lib env self w) = Raise e /\
             forall fields, candles = JObj fields ->
                            exists d, e = Exception_ (CandlesApiError d)) /\
  net (snd (calculate_buy_amount lib env self w)) = net w1 /\
  sent (snd (calculate_buy_amount lib env self w)) = sent w1.
Proof.
  intros Hc He.
  assert (E : exists e r1 r2,
             calculate_buy_amount lib env self w = (Raise e, logged (logged w1 r1) r2) /\
             forall fields, candles = JObj fields ->
                            exists d, e = Exception_ (CandlesApiError d)).
  { unfold calculate_buy_amount.
    rewrite try_except_run, bind_run, log_limits_run, bind_run.
    unfold get_mayer_multiple.
    rewrite try_except_run, bind_run, Hc, bind_run. unfold lift at 1. rewrite He.
    cbn beta iota. rewrite bind_run. unfold lift at 1.
    destruct (py_get candles "error" candles) as [d|e] eqn:Eg.
    - eexists; eexists; eexists. split; [reflexivity|].
      intros fields _. exists d. reflexivity.
    - eexists; eexists; eexists. split; [reflexivity|].
      intros fields ->. discriminate. }
  destruct E as (e & r1 & r2 & E & Hd). rewrite E.
  split; [exists e; split; [reflexivity|exact Hd]|split; reflexivity].
Qed.

(** The sentiment fetch without a payload. *)
Lemma get_fear_greed_index_neutral (self : BTCAccumulationBot) (w : World) :
  no_payload (requests_get env (net w) "https://api.alternative.me/fng/" 10) = true ->
  exists w', get_fear_greed_index lib env self w = (Ret 50, w').
Proof.
  intros H.
  unfold get_fear_greed_index, try_except, bind, call_requests_get, raise, lift,
    logging, ret.
  destruct (requests_get env (net w) "https://api.alternative.me/fng/" 10)
    as [ | | |[|] [data|]]; try discriminate; simpl; eexists; reflexivity.
Qed.

(** X7.  A sentiment outage never blocks the decision: when the index cannot
    be fetched (timeout, network error, HTTP error status, body that is not
    JSON), [calculate_buy_amount] decides as for the neutral reading 50. *)
Theorem calculate_buy_amount_sentiment_outage
        (self : BTCAccumulationBot) (w w1 : World) (R : float) :
  get_mayer_multiple lib env self (snd (log_limits self w)) = (Ret R, w1) ->
  no_payload (requests_get env (net w1) "https://api.alternative.me/fng/" 10) = true ->
  fst (calculate_buy_amount lib env self w) = Ret (decide (config self) R 50).
Proof.
  intros H1 Hn.
  destruct (get_fear_greed_index_neutral self w1 Hn) as [w2 H2].
  exact (calculate_buy_amount_returns lib env self w w1 w2 R 50 H1 H2).
Qed.

End Failures.

(** ** The sizing policy, continued *)

Section Sizing.
Import F64 F64Facts F64Order.

Variable lib : Library.
Variable env : Environment.

Lemma never_raises_get_fear_greed_index (self : BTCAccumulationBot) :
  never_raises (get_fear_greed_index lib env self).
Proof.
  intros w.
  unfold get_fear_greed_index, try_except, bind, call_requests_get, raise, lift,
    logging, ret.
  destruct (requests_get env (net w) "https://api.alternative.me/fng/" 10)
    as [ | | |[|] [data|]]; simpl; try (eexists; eexists; reflexivity).
  destruct (fear_greed_value lib data) as [v|[]]; simpl;
    eexists; eexists; reflexivity.
Qed.

(** The multiplier of a ratio that is not a number. *)
Lemma select_multiplier_nan (R : float) (S : Z) :
  is_nan R = true -> select_multiplier R S = (1.0%float, FairValue R).
Proof.
  intros H. unfold select_multiplier, gtb.
  rewrite !(ltb_nan_l R _ H), !(ltb_nan_r _ R H). reflexivity.
Qed.

(** X8.  A ratio that is not a number matches no row of the table: whatever
    the sentiment, [calculate_buy_amount] falls through to the fair-value
    row and returns the base amount, clamped. *)
Theorem calculate_buy_amount_nan_ratio
        (self : BTCAccumulationBot) (w w1 : World) (R : float) :
  get_mayer_multiple lib env self (snd (log_limits self w)) = (Ret R, w1) ->
  is_nan R = true ->
  fst (calculate_buy_amount lib env self w)
  = Ret (clamp_amount (config self) 1.0, FairValue R).
Proof.
  intros H1 Hn.
  destruct (never_raises_get_fear_greed_index self w1) as (S & w2 & H2).
  rewrite (calculate_buy_amount_returns lib env self w w1 w2 R S H1 H2).
  unfold decide. rewrite (select_multiplier_nan R S Hn). reflexivity.
Qed.

(** X9.  More fear never lowers the multiplier: for one ratio, a lower
    sentiment reading gives a multiplier at least as large. *)
Theorem select_multiplier_monotone_sentiment (R : float) (S1 S2 : Z) :
  S1 <= S2 ->
  (fst (select_multiplier R S2) <=? fst (select_multiplier R S1))%float = true.
Proof.
  intros H. unfold select_multiplier, gtb.
  destruct (Z.ltb_spec S1 25), (Z.ltb_spec S1 35), (Z.ltb_spec S1 30),
    (Z.ltb_spec S1 40), (Z.ltb_spec S2 25), (Z.ltb_spec S2 35),
    (Z.ltb_spec S2 30), (Z.ltb_spec S2 40); try lia;
    destruct (R <? 0.8)%float, (R <? 1.0)%float, (R <? 1.2)%float,
      (2.4 <? R)%float, (1.6 <? R)%float; reflexivity.
Qed.

(** X10.  A higher ratio never raises the multiplier: for one sentiment
    reading, the multiplier does not increase with the ratio. *)
Theorem select_multiplier_monotone_ratio (R1 R2 : float) (S : Z) :
  (R1 <=? R2)%float = true ->
  (fst (select_multiplier R2 S) <=? fst (select_multiplier R1 S))%float = true.
Proof.
  intros H.
  assert (A : forall t, (R2 <? t)%float = true -> (R1 <? t)%float = true)
    by (intros t Ht; exact (leb_ltb_trans R1 R2 t H Ht)).
  assert (B : forall t, (t <? R1)%float = true -> (t <? R2)%float = true)
    by (intros t Ht; exact (ltb_leb_trans t R1 R2 Ht H)).
  pose proof (A 0.8%float) as A1. pose proof (A 1.0%float) as A2.
  pose proof (A 1.2%float) as A3.
  pose proof (B 2.4%float) as B1. pose proof (B 1.6%float) as B2.
  clear A B H. unfold select_multiplier, gtb.
  set (a1 := (R1 <? 0.8)%float) in *. set (a2 := (R2 <? 0.8)%float) in *.
  set (b1 := (R1 <? 1.0)%float) in *. set (b2 := (R2 <? 1.0)%float) in *.
  set (c1 := (R1 <? 1.2)%float) in *. set (c2 := (R2 <? 1.2)%float) in *.
  set (d1 := (2.4 <? R1)%float) in *. set (d2 := (2.4 <? R2)%float) in *.
  set (e1 := (1.6 <? R1)%float) in *. set (e2 := (1.6 <? R2)%float) in *.
  clearbody a1 a2 b1 b2 c1 c2 d1 d2 e1 e2.
  destruct a2; [specialize (A1 eq_refl); subst a1|clear A1; destruct a1];
  (destruct b2; [specialize (A2 eq_refl); subst b1|clear A2; destruct b1]);
  (destruct c2; [specialize (A3 eq_refl); subst c1|clear A3; destruct c1]);
  (destruct d1; [specialize (B1 eq_refl); subst d2|clear B1; destruct d2]);
  (destruct e1; [specialize (B2 eq_refl); subst e2|clear B2; destruct e2]);
  destruct (S <? 25), (S <? 35), (S <? 30), (S <? 40); reflexivity.
Qed.

(** With a band whose maximum lies below its minimum, a positive multiplier
    yields the minimum. *)
Lemma clamp_amount_inverted (c : Config) (m : float) :
  is_finite (BASE_WEEKLY_AMOUNT c) = true -> is_finite m = true ->
  (MAX_WEEKLY_AMOUNT c <? MIN_WEEKLY_AMOUNT c)%float = true ->
  gtb m 0 = true ->
  clamp_amount c m = MIN_WEEKLY_AMOUNT c.
Proof.
  intros Hb Hf Hinv Hm. unfold clamp_amount. rewrite Hm.
  pose proof (mul_fin_not_nan _ _ Hb Hf) as Hx.
  destruct (ltb_not_nan _ _ Hinv) as [Hmax _].
  unfold py_max, py_min, gtb.
  destruct (MAX_WEEKLY_AMOUNT c <? BASE_WEEKLY_AMOUNT c * m)%float eqn:E1.
  - rewrite Hinv. reflexivity.
  - rewrite (leb_ltb_trans _ _ _ (ltb_false_leb _ _ Hmax Hx E1) Hinv). reflexivity.
Qed.

(** X11.  The cap is not a cap when the band is inverted: with
    [MAX_WEEKLY_AMOUNT < MIN_WEEKLY_AMOUNT], every decision with a positive
    multiplier is the minimum, which exceeds the maximum. *)
Theorem calculate_buy_amount_inverted_band
        (self : BTCAccumulationBot) (w w1 w2 : World) (R : float) (S : Z) :
  get_mayer_multiple lib env self (snd (log_limits self w)) = (Ret R, w1) ->
  get_fear_greed_index lib env self w1 = (Ret S, w2) ->
  is_finite (BASE_WEEKLY_AMOUNT (config self)) = true ->
  (MAX_WEEKLY_AMOUNT (config self) <? MIN_WEEKLY_AMOUNT (config self))%float = true ->
  gtb (fst (select_multiplier R S)) 0 = true ->
  fst (calculate_buy_amount lib env self w)
  = Ret (MIN_WEEKLY_AMOUNT (config self), snd (select_multiplier R S)).
Proof.
  intros H1 H2 Hb Hinv Hm.
  rewrite (calculate_buy_amount_returns lib env self w w1 w2 R S H1 H2).
  unfold decide.
  destruct (select_multiplier_cases R S) as [E|[_ Hf]];
    [rewrite E in Hm; discriminate|].
  destruct (select_multiplier R S) as [m s]. cbn [fst snd] in *.
  rewrite (clamp_amount_inverted _ m Hb Hf Hinv Hm). reflexivity.
Qed.

End Sizing.

(** ** Balances, continued *)

Section Balances2.

Variable lib : Library.
Variable env : Environment.

Lemma balances_get_set_same (name : string) (x : float) (d : balances) :
  balances_get (KStr name) (balances_set (KStr name) x d) = Some x.
Proof.
  induction d as [|[k v] rest IH]; cbn [balances_set balances_get].
  - cbn. rewrite String.eqb_refl. reflexivity.
  - destruct (key_eqb (KStr name) k) eqn:E; cbn [balances_get]; rewrite E;
      [reflexivity|exact IH].
Qed.

Lemma balances_get_set_other (name other : string) (x : float) (d : balances) :
  String.eqb other name = false ->
  balances_get (KStr name) (balances_set (KStr other) x d)
  = balances_get (KStr name) d.
Proof.
  intros Hne.
  assert (Hne' : String.eqb name other = false)
    by (rewrite String.eqb_sym; exact Hne).
  induction d as [|[k v] rest IH]; cbn [balances_set balances_get].
  - cbn. rewrite Hne'. reflexivity.
  - destruct (key_eqb (KStr other) k) eqn:E; cbn [balances_get].
    + destruct k as [ |n| | ]; try discriminate.
      cbn in E |- *. apply String.eqb_eq in E. subst n. rewrite Hne'. reflexivity.
    + rewrite IH. reflexivity.
Qed.

(** An entry that does not name the asset leaves its balance alone. *)
Lemma spec_record_other (name : string) (info : balances) (e : json) :
  names_asset name e = false ->
  balances_get (KStr name) (spec_record lib info e) = balances_get (KStr name) info.
Proof.
  intros H. unfold spec_record. destruct e as [ | | | | | |fields]; try reflexivity.
  unfold names_asset, asset_of in H.
  destruct (lookup "assetName" fields) as [[ | | | |n| | ]|]; try reflexivity.
  destruct (spec_amount fields); try reflexivity.
  destruct (String.eqb n ""); [reflexivity|].
  destruct (float_of_string lib s); apply balances_get_set_other; exact H.
Qed.

Lemma fold_spec_record_other (name : string) (post : list json) (info : balances) :
  forallb (fun e => negb (names_asset name e)) post = true ->
  balances_get (KStr name) (fold_left (spec_record lib) post info)
  = balances_get (KStr name) info.
Proof.
  revert info. induction post as [|e rest IH]; intros info H; [reflexivity|].
  cbn [forallb] in H. apply andb_prop in H as [He Hr].
  cbn [fold_left]. rewrite (IH _ Hr). apply spec_record_other.
  destruct (names_asset name e); [discriminate|reflexivity].
Qed.

(** X12.  When several entries name the same asset, the last one wins: the
    balance recorded for an asset is the amount of the last entry that names
    it, or 0.0 when that amount does not parse. *)
Theorem get_account_balance_last_entry_wins
        (self : BTCAccumulationBot) (w w0 : World)
        (pre post : list json) (fields : list (string * json)) (name s : string) :
  get_account_balances lib env (client self) w
  = (Ret (JArr (pre ++ JObj fields :: post)), w0) ->
  forallb balance_entry (pre ++ JObj fields :: post) = true ->
  lookup "assetName" fields = Some (JStr name) -> name <> "" ->
  spec_amount fields = JStr s ->
  forallb (fun e => negb (names_asset name e)) post = true ->
  exists b w',
    get_account_balance lib env self w = (Ret b, w') /\
    balances_get (KStr name) b
    = Some (match float_of_string lib s with Some x => x | None => 0%float end).
Proof.
  intros Hb Hall Hn Hne Hs Hpost.
  destruct (parse_balance_items_spec lib _ [] w0 Hall) as (w1 & rs & Hrun & _).
  eexists; eexists. split.
  - unfold get_account_balance, get_account_balance_try.
    rewrite try_except_run, bind_run, Hb, bind_run.
    unfold lift at 1. rewrite (balance_entries_not_error_shaped _ Hall).
    cbn beta iota. rewrite bind_run, Hrun. reflexivity.
  - rewrite fold_left_app. cbn [fold_left].
    rewrite (fold_spec_record_other name post _ Hpost).
    unfold spec_record. rewrite Hn, Hs.
    destruct (String.eqb_spec name ""); [contradiction|].
    destruct (float_of_string lib s); apply balances_get_set_same.
Qed.

(** An entry with a name that cannot be a key makes the loop raise. *)
Lemma parse_balance_item_unhashable (fields : list (string * json)) (name : json)
      (info : balances) (w : World) :
  lookup "assetName" fields = Some name ->
  py_bool name = true -> py_key name = Raise TypeError ->
  is_none (spec_amount fields) = false ->
  exists e w', parse_balance_item lib (JObj fields) info w = (Raise e, w').
Proof.
  intros Hn Hb Hk Ha. unfold parse_balance_item. rewrite Hn.
  fold (spec_amount fields). rewrite Hb, Ha. cbn [andb negb].
  unfold try_except, bind, lift, store_balance, logging, ret, raise.
  rewrite Hk. cbn [res_bind].
  destruct (py_float lib (spec_amount fields)) as [x|[]];
    eexists; eexists; reflexivity.
Qed.

Lemma parse_balance_items_raises (pre post : list json) (e : json) :
  (forall info w, exists x w', parse_balance_item lib e info w = (Raise x, w')) ->
  forall info w, exists x w',
      parse_balance_items lib (pre ++ e :: post) info w = (Raise x, w').
Proof.
  intros He. induction pre as [|a rest IH]; intros info w.
  - cbn [app parse_balance_items]. rewrite bind_run.
    destruct (He info w) as (x & w' & E). rewrite E. eexists; eexists; reflexivity.
  - cbn [app parse_balance_items]. rewrite bind_run.
    destruct (parse_balance_item lib a info w) as [[info'|x] w1].
    + apply IH.
    + eexists; eexists; reflexivity.
Qed.

(** X13.  One entry whose asset name is a non-empty list or object (a value
    that cannot be a dictionary key) discards every balance: the assignment
    raises inside the handler of the parse error, and [get_account_balance]
    returns the empty mapping, whatever the other entries are. *)
Theorem get_account_balance_unhashable_name
        (self : BTCAccumulationBot) (w w0 : World)
        (pre post : list json) (fields : list (string * json)) (name : json) :
  get_account_balances lib env (client self) w
  = (Ret (JArr (pre ++ JObj fields :: post)), w0) ->
  lookup "assetName" fields = Some name ->
  py_bool name = true -> py_key name = Raise TypeError ->
  is_none (spec_amount fields) = false ->
  fst (get_account_balance lib env self w) = Ret [].
Proof.
  intros Hb Hn Ht Hk Ha.
  unfold get_account_balance, get_account_balance_try.
  rewrite try_except_run, bind_run, Hb, bind_run. unfold lift at 1.
  destruct (error_shaped (JArr (pre ++ JObj fields :: post))) as [[|]|x] eqn:Ee.
  - cbn beta iota. unfold bind, lift, raise, logging, ret. cbn. reflexivity.
  - cbn beta iota. rewrite bind_run.
    destruct (parse_balance_items_raises pre post (JObj fields)
                (fun info w' => parse_balance_item_unhashable fields name info w' Hn Ht Hk Ha)
                [] w0) as (x & w' & E).
    rewrite E. reflexivity.
  - reflexivity.
Qed.

End Balances2.

(** ** Orders *)

Section Orders.

Variable lib : Library.
Variable env : Environment.

Lemma never_raises_try_except {A : Type} (c : M A) (h : exn -> M A) :
  (forall e, never_raises (h e)) -> never_raises (try_except c h).
Proof.
  intros Hh w. unfold try_except.
  destruct (c w) as [[a|e] w1]; [exists a, w1; reflexivity | apply Hh].
Qed.

Lemma never_raises_get_account_balance (self : BTCAccumulationBot) :
  never_raises (get_account_balance lib env self).
Proof.
  apply never_raises_try_except. intros e w. eexists; eexists; reflexivity.
Qed.

Lemma never_raises_get_portfolio_summary (self : BTCAccumulationBot) :
  never_raises (get_portfolio_summary lib env self).
Proof.
  apply never_raises_try_except. intros e w. eexists; eexists; reflexivity.
Qed.

Lemma never_raises_execute_buy_order (self : BTCAccumulationBot) (amount : float) :
  never_raises (execute_buy_order lib env self amount).
Proof.
  unfold execute_buy_order.
  destruct (amount <? MIN_WEEKLY_AMOUNT (config self))%float.
  - intros w. eexists; eexists; reflexivity.
  - apply never_raises_try_except. intros e w. eexists; eexists; reflexivity.
Qed.

(** X14.  [execute_buy_order] never raises, and whenever it sends anything but
    GET requests the three guards have passed: the amount is not below the
    minimum, the AUD balance just fetched is not below the amount, and a
    non-zero price has just been fetched. *)
Theorem execute_buy_order_guards
        (self : BTCAccumulationBot) (amount : float) (w : World) :
  (exists r w', execute_buy_order lib env self amount w = (Ret r, w')) /\
  (all_get w ->
   all_get (snd (execute_buy_order lib env self amount w)) \/
   exists b w1 p w2,
     (amount <? MIN_WEEKLY_AMOUNT (config self))%float = false /\
     get_account_balance lib env self w = (Ret b, w1) /\
     (aud_of b <? amount)%float = false /\
     get_current_price lib env self w1 = (Ret p, w2) /\
     (p =? 0)%float = false).
Proof.
  split; [apply never_raises_execute_buy_order|].
  intros Hw. unfold execute_buy_order.
  destruct (amount <? MIN_WEEKLY_AMOUNT (config self))%float eqn:Eg.
  - left. exact Hw.
  - rewrite try_except_run, bind_run.
    pose proof (read_only_get_account_balance lib env self w Hw) as H1.
    destruct (get_account_balance lib env self w) as [[b|e] w1] eqn:Eb;
      [|left; exact H1].
    cbn [snd] in H1. fold (aud_of b).
    destruct (aud_of b <? amount)%float eqn:Ea; [left; exact H1|].
    rewrite bind_run.
    pose proof (read_only_get_current_price lib env self w1 H1) as H2.
    destruct (get_current_price lib env self w1) as [[p|e] w2] eqn:Ep;
      [|left; exact H2].
    cbn [snd] in H2. rewrite bind_run. unfold lift at 1, py_truediv.
    destruct (p =? 0)%float eqn:Ez; [left; exact H2|].
    right. exists b, w1, p, w2. repeat split; assumption.
Qed.

End Orders.

(** ** The order request *)

Section OrderRequest.

Variable lib : Library.
Variable env : Environment.

Lemma offline_ret {A : Type} (a : A) : offline (ret a).
Proof. intros w. split; reflexivity. Qed.

Lemma offline_raise {A : Type} (e : exn) : offline (@raise A e).
Proof. intros w. split; reflexivity. Qed.

Lemma offline_lift {A : Type} (c : res A) : offline (lift c).
Proof. intros w. split; reflexivity. Qed.

Lemma offline_logging (l : level) (text : string) (args : list logarg) :
  offline (logging l text args).
Proof. intros w. split; reflexivity. Qed.

Lemma offline_bind {A B : Type} (c : M A) (k : A -> M B) :
  offline c -> (forall a, offline (k a)) -> offline (bind c k).
Proof.
  intros Hc Hk w. unfold bind. specialize (Hc w).
  destruct (c w) as [[a|e] w1]; cbn [snd] in Hc |- *.
  - destruct (Hk a w1) as [H1 H2]. destruct Hc as [H3 H4].
    split; congruence.
  - exact Hc.
Qed.

Ltac offline_step :=
  lazymatch goal with
  | |- offline (bind _ _) => apply offline_bind; [|intros ?]
  | |- offline (ret _) => apply offline_ret
  | |- offline (raise _) => apply offline_raise
  | |- offline (lift _) => apply offline_lift
  | |- offline (logging _ _ _) => apply offline_logging
  | |- offline (if ?b then _ else _) => destruct b
  end.

(** X15.  Once the guards have passed, [execute_buy_order] sends exactly one
    more request: a POST to [/v3/orders] whose payload is a market bid on
    the bot's market for [amount / price] BTC, written with eight decimals. *)
Theorem execute_buy_order_request
        (self : BTCAccumulationBot) (amount : float) (w w1 w2 : World)
        (b : balances) (p : float) (ms : Z) :
  (amount <? MIN_WEEKLY_AMOUNT (config self))%float = false ->
  get_account_balance lib env self w = (Ret b, w1) ->
  (aud_of b <? amount)%float = false ->
  get_current_price lib env self w1 = (Ret p, w2) ->
  (p =? 0)%float = false ->
  py_int_of_float (time_time env (clock w2) * 1000)%float = Ret ms ->
  sent (snd (execute_buy_order lib env self amount w))
  = (sent w2 ++
     [built_request lib (client self) "POST"
        (api_key (client self)) (private_key (client self)) "/v3/orders" None
        (Some (JObj [ ("marketId", JStr (market_id self));
                      ("amount", JStr (format_8f lib (amount / p)%float));
                      ("type", JStr "Market");
                      ("side", JStr "Bid") ]))
        (string_of_Z ms)])%list.
Proof.
  intros Hg Hb Ha Hp Hz Hc.
  unfold execute_buy_order. rewrite Hg, try_except_run, bind_run, Hb.
  fold (aud_of b). rewrite Ha, bind_run, Hp, bind_run.
  unfold lift at 1, py_truediv. rewrite Hz.
  rewrite bind_run. unfold logging at 1. fold (announced w2 (amount / p)%float amount).
  rewrite bind_run. unfold place_market_buy_order.
  match goal with |- context [__make_http_call lib env ?s ?m ?k ?pk ?pa ?q ?pl ?w0] =>
    pose proof (make_http_call_unfold lib env s m k pk pa q pl w0) as H end.
  change (clock (announced w2 (amount / p)%float amount)) with (clock w2) in H.
  rewrite Hc in H. cbv zeta in H. rewrite H. clear H.
  match goal with |- context [handle_outcome lib ?m ?pa ?o ?w0] =>
    destruct (handle_outcome_world lib m pa o w0) as (v & r & Hv) end.
  rewrite Hv.
  match goal with |- context [bind ?c ?k ?w0] =>
    assert (Ho : offline (bind c k)) end.
  { repeat offline_step. }
  match goal with |- context [bind ?c ?k ?w0] =>
    destruct (Ho w0) as [_ Hs]; destruct (bind c k w0) as [[x|e] w4] end;
    unfold bind, logging, ret, logged; cbn [snd sent] in Hs |- *;
    rewrite Hs; reflexivity.
Qed.

(** X16.  A price that cannot be fetched, or a price of zero, fails the order
    without raising and without sending it: the exception becomes the reason
    of the failure. *)
Theorem execute_buy_order_price_failure
        (self : BTCAccumulationBot) (amount : float) (w w1 w2 : World)
        (b : balances) (r : res float) :
  (amount <? MIN_WEEKLY_AMOUNT (config self))%float = false ->
  get_account_balance lib env self w = (Ret b, w1) ->
  (aud_of b <? amount)%float = false ->
  get_current_price lib env self w1 = (r, w2) ->
  match r with
  | Raise e =>
      fst (execute_buy_order lib env self amount w) = Ret (Failure (ExceptionText e)) /\
      sent (snd (execute_buy_order lib env self amount w)) = sent w2
  | Ret p =>
      (p =? 0)%float = true ->
      fst (execute_buy_order lib env self amount w)
      = Ret (Failure (ExceptionText ZeroDivisionError)) /\
      sent (snd (execute_buy_order lib env self amount w)) = sent w2
  end.
Proof.
  intros Hg Hb Ha Hp.
  unfold execute_buy_order. rewrite Hg, try_except_run, bind_run, Hb.
  fold (aud_of b). rewrite Ha, bind_run, Hp.
  destruct r as [p|e].
  - intros Hz. rewrite bind_run. unfold lift at 1, py_truediv. rewrite Hz.
    split; reflexivity.
  - split; reflexivity.
Qed.

End OrderRequest.

Section Orders2.

Variable lib : Library.
Variable env : Environment.

(** X17.  Once the guards have passed, the order is a market buy of
    [amount / price] BTC written with eight decimals, and the answer of the
    exchange decides the result: an ['error'] in it is the reason of the
    failure, a bare ['statusCode'] gives the reason "HTTP <code>", and
    otherwise the order succeeded, with ['orderId'] and ['status'] defaulting
    to "N/A" and "Unknown". *)
Theorem execute_buy_order_outcome
        (self : BTCAccumulationBot) (amount : float) (w w1 w2 w3 : World)
        (b : balances) (p : float) (fields : list (string * json)) :
  (amount <? MIN_WEEKLY_AMOUNT (config self))%float = false ->
  get_account_balance lib env self w = (Ret b, w1) ->
  (aud_of b <? amount)%float = false ->
  get_current_price lib env self w1 = (Ret p, w2) ->
  (p =? 0)%float = false ->
  place_market_buy_order lib env (client self) (market_id self)
                         (format_8f lib (amount / p)%float)
                         (announced w2 (amount / p)%float amount)
    = (Ret (JObj fields), w3) ->
  fst (execute_buy_order lib env self amount w)
  = Ret (order_outcome lib fields (amount / p)%float amount p).
Proof.
  intros Hg Hb Ha Hp Hz Ho.
  unfold execute_buy_order. rewrite Hg, try_except_run, bind_run, Hb.
  fold (aud_of b). rewrite Ha, bind_run, Hp, bind_run.
  unfold lift at 1, py_truediv. rewrite Hz.
  rewrite bind_run. unfold logging at 1. fold (announced w2 (amount / p)%float amount).
  rewrite bind_run, Ho. unfold order_outcome, error_shaped, py_contains.
  rewrite bind_run. unfold lift at 1. cbn [res_bind].
  destruct (lookup "error" fields) as [err|] eqn:Ee.
  - cbn [py_get]. unfold bind, lift, logging, ret. cbn [py_get].
    rewrite Ee. reflexivity.
  - destruct (lookup "statusCode" fields) as [code|] eqn:Es.
    + unfold bind, lift, logging, ret. cbn [py_get]. rewrite Ee, Es. reflexivity.
    + unfold bind, lift, logging, ret. cbn [py_get]. reflexivity.
Qed.

(** X18.  [get_portfolio_summary] never raises.  It fetches the balances, then
    the price: without a price there is no summary; with one, the summary
    values the BTC balance at that price and adds the AUD balance, an asset
    missing from the balances counting as zero. *)
Theorem get_portfolio_summary_spec (self : BTCAccumulationBot) (w : World) :
  exists b w1,
    get_account_balance lib env self w = (Ret b, w1) /\
    match get_current_price lib env self w1 with
    | (Ret p, w2) =>
        get_portfolio_summary lib env self w = (Ret (Some (summary_of b p)), w2)
    | (Raise e, w2) =>
        fst (get_portfolio_summary lib env self w) = Ret None
    end.
Proof.
  destruct (never_raises_get_account_balance lib env self w) as (b & w1 & Hb).
  exists b, w1. split; [exact Hb|].
  unfold get_portfolio_summary. rewrite try_except_run, bind_run, Hb, bind_run.
  destruct (get_current_price lib env self w1) as [[p|e] w2]; reflexivity.
Qed.

(** X19.  [test_api_connection] never raises.  It asks for the ticker first:
    unless that answer is free of error markers the test fails there and the
    balances are never requested; otherwise the test passes exactly when the
    answer to the balance request is free of error markers too. *)
Theorem test_api_connection_spec (self : BTCAccumulationBot) (w : World) :
  (exists ok w', test_api_connection lib env self w = (Ret ok, w')) /\
  forall ticker w1,
    get_ticker lib env (client self) (market_id self) (probing w) = (Ret ticker, w1) ->
    (error_shaped ticker <> Ret false ->
     fst (test_api_connection lib env self w) = Ret false /\
     sent (snd (test_api_connection lib env self w)) = sent w1) /\
    (error_shaped ticker = Ret false ->
     forall answer w2,
       get_account_balances lib env (client self) w1 = (Ret answer, w2) ->
       fst (test_api_connection lib env self w)
       = Ret (match error_shaped answer with
              | Ret false => true
              | _ => false
              end)).
Proof.
  split.
  - apply never_raises_try_except. intros e w0. eexists; eexists; reflexivity.
  - intros ticker w1 Ht. split.
    + intros Hne.
      assert (E : exists r, test_api_connection lib env self w
                            = (Ret false, logged w1 r)).
      { unfold test_api_connection.
        rewrite try_except_run, bind_run. unfold logging at 1. fold (probing w).
        rewrite bind_run, Ht, bind_run. unfold lift at 1.
        destruct (error_shaped ticker) as [[|]|e]; try contradiction;
          eexists; reflexivity. }
      destruct E as [r E]. rewrite E. split; reflexivity.
    + intros He answer w2 Ha. unfold test_api_connection.
      rewrite try_except_run, bind_run. unfold logging at 1. fold (probing w).
      rewrite bind_run, Ht, bind_run. unfold lift at 1.
      rewrite He. cbn beta iota.
      rewrite bind_run, Ha, bind_run. unfold lift at 1.
      destruct (error_shaped answer) as [[|]|e]; try reflexivity.
      destruct answer as [ | | | | |[|x rest]| ]; reflexivity.
Qed.

End Orders2.

Section Run.

Variable lib : Library.
Variable env : Environment.

Lemma log_portfolio_run (title : string) (p : option portfolio) (w : World) :
  exists w', log_portfolio title p w = (Ret tt, w') /\ sent w' = sent w.
Proof. destruct p as [q|]; eexists; split; reflexivity. Qed.

(** X20.  When the connection test fails, [run] raises "API connection test
    failed" at once: nothing is computed and nothing more is requested. *)
Theorem run_connection_test_failed
        (self : BTCAccumulationBot) (w w1 : World) :
  test_api_connection lib env self (started w) = (Ret false, w1) ->
  fst (run lib env self w) = Raise (Exception_ ApiConnectionTestFailed) /\
  sent (snd (run lib env self w)) = sent w1 /\
  net (snd (run lib env self w)) = net w1.
Proof.
  intros Ht.
  assert (E : exists r, run lib env self w
                        = (Raise (Exception_ ApiConnectionTestFailed), logged w1 r)).
  { unfold run. rewrite bind_run. unfold logging at 1. fold (started w).
    rewrite bind_run, try_except_run, bind_run, Ht. eexists. reflexivity. }
  destruct E as [r E]. rewrite E. repeat split.
Qed.

(** X21.  [run] sends nothing but GET requests unless it attempts an order,
    and it attempts one only with the positive amount [calculate_buy_amount]
    returned; once attempted, the order's result is what [run] ends with. *)
Theorem run_orders_only_when_positive (self : BTCAccumulationBot) (w : World) :
  all_get w ->
  all_get (snd (run lib env self w)) \/
  exists a s r w1 w2 w3 w4,
    calculate_buy_amount lib env self w1 = (Ret (a, s), w2) /\
    F64.gtb a 0 = true /\
    execute_buy_order lib env self a w3 = (Ret r, w4) /\
    fst (run lib env self w) = Ret (Some r).
Proof.
  intros Hw. destruct (run lib env self w) as [r0 w'] eqn:H. cbn [fst snd].
  unfold run in H. rewrite bind_run in H. unfold logging at 1 in H. fold (started w) in H.
  rewrite bind_run, try_except_run, bind_run in H.
  pose proof (read_only_test_api_connection lib env self (started w) Hw) as H1.
  destruct (test_api_connection lib env self (started w)) as [[[|]|e] w1];
    cbn [snd negb] in H1, H;
    try (left; unfold raise, bind, logging, ret in H; injection H as _ <-; exact H1).
  rewrite bind_run in H. unfold logging at 1 in H. rewrite bind_run in H.
  match type of H with context [calculate_buy_amount lib env self ?w0] =>
    pose proof (read_only_calculate_buy_amount lib env self w0 H1) as H2;
    destruct (calculate_buy_amount lib env self w0) as [[[a s]|e] w2] eqn:Ecalc end;
    cbn [snd] in H2;
    [|left; unfold raise, bind, logging, ret in H; injection H as _ <-; exact H2].
  rewrite bind_run in H.
  pose proof (read_only_get_current_price lib env self w2 H2) as H3.
  destruct (get_current_price lib env self w2) as [[p|e] w3];
    cbn [snd] in H3;
    [|left; unfold raise, bind, logging, ret in H; injection H as _ <-; exact H3].
  rewrite bind_run in H. unfold logging at 1 in H. rewrite bind_run in H.
  match type of H with context [get_portfolio_summary lib env self ?w0] =>
    pose proof (read_only_get_portfolio_summary lib env self w0 H3) as H4;
    destruct (never_raises_get_portfolio_summary lib env self w0) as (pf & w4 & E4) end.
  rewrite E4 in H4, H. cbn [snd] in H4. rewrite bind_run in H.
  destruct (log_portfolio_run "CURRENT PORTFOLIO" pf w4) as (w5 & E5 & S5).
  rewrite E5 in H. rewrite bind_run in H.
  assert (H5 : all_get w5) by (unfold all_get; rewrite S5; exact H4).
  destruct (F64.gtb a 0) eqn:Epos.
  - right. rewrite bind_run in H. unfold logging at 1 in H. rewrite bind_run in H.
    match type of H with context [execute_buy_order lib env self a ?w0] =>
      destruct (never_raises_execute_buy_order lib env self a w0) as (r & w6 & E6) end.
    exists a, s, r. do 4 eexists. split; [exact Ecalc|]. split; [exact Epos|].
    split; [exact E6|]. rewrite E6 in H. rewrite bind_run in H.
    assert (Hl : exists w7, (match r with
             | Success btc_amount aud_amount order_id order_status price _ =>
                 logging INFO "BTC PURCHASE SUCCESSFUL!"
                   [AFloat btc_amount; AFloat aud_amount;
                    AFloat price; AJson order_id; AJson order_status]
             | Failure _ => logging ERROR "BTC PURCHASE FAILED!" []
             end) w6 = (Ret tt, w7)).
    { destruct r; eexists; reflexivity. }
    destruct Hl as [w7 E7]. rewrite E7 in H. unfold ret at 1 in H. rewrite bind_run in H.
    destruct (never_raises_get_portfolio_summary lib env self w7) as (pf' & w8 & E8).
    rewrite E8, bind_run in H.
    destruct (log_portfolio_run "FINAL PORTFOLIO SUMMARY" pf' w8) as (w9 & E9 & _).
    rewrite E9 in H. unfold ret, bind, logging in H. injection H as <- _. reflexivity.
  - left. rewrite bind_run in H. unfold logging at 1 in H. unfold ret at 1 in H.
    rewrite bind_run in H.
    match type of H with context [get_portfolio_summary lib env self ?w0] =>
      pose proof (read_only_get_portfolio_summary lib env self w0 H5) as H6;
      destruct (never_raises_get_portfolio_summary lib env self w0) as (pf' & w8 & E8) end.
    rewrite E8 in H6, H. cbn [snd] in H6. rewrite bind_run in H.
    destruct (log_portfolio_run "FINAL PORTFOLIO SUMMARY" pf' w8) as (w9 & E9 & S9).
    rewrite E9 in H. unfold ret, bind, logging in H. injection H as _ <-.
    unfold all_get. cbn. rewrite S9. exact H6.
Qed.

End Run.

(** ** The theorems at work on the concrete exchanges *)

Lemma get_current_price_spec_witness :
  fst (get_current_price Demo.lib Demo.env Demo.bot Demo.start) = Ret 75000%float.
Proof.
  eapply get_current_price_spec.
  - vm_compute. reflexivity.
  - eexists; eexists. repeat split; reflexivity.
Defined.

Lemma get_current_price_transport_failure_witness :
  exists d,
    fst (get_current_price Demo.lib Scenario.unreachable Demo.bot Demo.start)
    = Raise (Exception_ (ApiError d)).
Proof.
  edestruct (get_current_price_transport_failure Demo.lib Scenario.unreachable
               Demo.bot Demo.start) as (d & H & _).
  - vm_compute. reflexivity.
  - reflexivity.
  - exists d. exact H.
Defined.

Lemma calculate_buy_amount_candles_error_witness :
  (exists e, fst (calculate_buy_amount Demo.lib Scenario.candles_down Demo.bot Demo.start)
             = Raise e) /\
  net (snd (calculate_buy_amount Demo.lib Scenario.candles_down Demo.bot Demo.start)) = 1%nat.
Proof.
  edestruct (calculate_buy_amount_candles_error Demo.lib Scenario.candles_down
               Demo.bot Demo.start) as ((e & He & _) & Hn & _).
  - vm_compute. reflexivity.
  - reflexivity.
  - split; [exists e; exact He|]. rewrite Hn. reflexivity.
Defined.

Lemma calculate_buy_amount_sentiment_outage_witness :
  fst (calculate_buy_amount Demo.lib Scenario.sentiment_down Demo.bot Demo.start)
  = Ret (decide Demo.settings 0.75 50).
Proof.
  eapply calculate_buy_amount_sentiment_outage.
  - vm_compute. reflexivity.
  - reflexivity.
Defined.

Lemma calculate_buy_amount_nan_ratio_witness :
  fst (calculate_buy_amount Scenario.nan_mean Demo.env Demo.bot Demo.start)
  = Ret (500%float, FairValue nan).
Proof.
  eapply (calculate_buy_amount_nan_ratio Scenario.nan_mean Demo.env Demo.bot
            Demo.start _ nan).
  - vm_compute. reflexivity.
  - reflexivity.
Defined.

Lemma select_multiplier_monotone_sentiment_witness :
  (fst (select_multiplier 0.75 40) <=? fst (select_multiplier 0.75 20))%float = true.
Proof. apply select_multiplier_monotone_sentiment. lia. Defined.

Lemma select_multiplier_monotone_ratio_witness :
  (fst (select_multiplier 1.1 20) <=? fst (select_multiplier 0.75 20))%float = true.
Proof. apply select_multiplier_monotone_ratio. reflexivity. Defined.

Lemma calculate_buy_amount_inverted_band_witness :
  exists s,
    fst (calculate_buy_amount Demo.lib Demo.env Scenario.inverted Demo.start)
    = Ret (3000%float, s) /\
    (MAX_WEEKLY_AMOUNT (config Scenario.inverted) <? 3000)%float = true.
Proof.
  eexists. split; [|reflexivity].
  eapply (calculate_buy_amount_inverted_band Demo.lib Demo.env Scenario.inverted
            Demo.start _ _ 0.75%float 20).
  - vm_compute. reflexivity.
  - vm_compute. reflexivity.
  - reflexivity.
  - reflexivity.
  - reflexivity.
Defined.

Lemma get_account_balance_last_entry_wins_witness :
  exists b,
    fst (get_account_balance Scenario.lib
           (Demo.environment (Responded 200 "candles") (Responded 200 "twice")
                             (Demo.fng (JStr "20")))
           Demo.bot Demo.start) = Ret b /\
    balances_get (KStr "AUD") b = Some 2%float.
Proof.
  pose proof (fun w0 =>
    get_account_balance_last_entry_wins Scenario.lib
      (Demo.environment (Responded 200 "candles") (Responded 200 "twice")
                        (Demo.fng (JStr "20")))
      Demo.bot Demo.start w0
      [ JObj [("assetName", JStr "AUD"); ("available", JStr "1")];
        JObj [("assetName", JStr "BTC"); ("available", JStr "3")] ]
      [] [("assetName", JStr "AUD"); ("available", JStr "2")] "AUD" "2") as H.
  edestruct H as (b & w' & Hr & Hb).
  - vm_compute. reflexivity.
  - reflexivity.
  - reflexivity.
  - discriminate.
  - reflexivity.
  - reflexivity.
  - exists b. rewrite Hr. split; [reflexivity|exact Hb].
Defined.

Lemma get_account_balance_unhashable_name_witness :
  fst (get_account_balance Scenario.lib
         (Demo.environment (Responded 200 "candles") (Responded 200 "odd")
                           (Demo.fng (JStr "20")))
         Demo.bot Demo.start) = Ret [].
Proof.
  pose proof (fun w0 =>
    get_account_balance_unhashable_name Scenario.lib
      (Demo.environment (Responded 200 "candles") (Responded 200 "odd")
                        (Demo.fng (JStr "20")))
      Demo.bot Demo.start w0
      [ JObj [("assetName", JStr "AUD"); ("available", JStr "4000")] ] []
      [("assetName", JArr [JStr "BTC"]); ("available", JStr "1")]
      (JArr [JStr "BTC"])) as H.
  eapply H.
  - vm_compute. reflexivity.
  - reflexivity.
  - reflexivity.
  - reflexivity.
  - reflexivity.
Defined.

Lemma execute_buy_order_guards_witness :
  exists b p w1,
    get_account_balance Demo.lib Demo.env Demo.bot Demo.start = (Ret b, w1) /\
    (aud_of b <? 2000)%float = false /\
    fst (get_current_price Demo.lib Demo.env Demo.bot w1) = Ret p /\
    (p =? 0)%float = false.
Proof.
  destruct (execute_buy_order_guards Demo.lib Demo.env Demo.bot 2000 Demo.start)
    as [_ H].
  destruct (H eq_refl) as [Hg|(b & w1 & p & w2 & _ & Hb & Ha & Hp & Hz)].
  - exfalso. vm_compute in Hg. discriminate.
  - exists b, p, w1. rewrite Hp. repeat split; assumption.
Defined.

Lemma execute_buy_order_request_witness :
  exists pre req,
    sent (snd (execute_buy_order Demo.lib Demo.env Demo.bot 2000 Demo.start))
    = (pre ++ [req])%list /\
    method req = "POST" /\ url req = "https://api.btcmarkets.net/v3/orders".
Proof.
  eexists; eexists. split; [|split].
  - eapply (execute_buy_order_request Demo.lib Demo.env Demo.bot 2000 Demo.start).
    + reflexivity.
    + vm_compute. reflexivity.
    + reflexivity.
    + vm_compute. reflexivity.
    + reflexivity.
    + vm_compute. reflexivity.
  - reflexivity.
  - reflexivity.
Defined.

Lemma execute_buy_order_outcome_witness :
  exists r,
    fst (execute_buy_order Demo.lib Demo.env Demo.bot 2000 Demo.start) = Ret r /\
    success r = true.
Proof.
  eexists. split.
  - eapply (execute_buy_order_outcome Demo.lib Demo.env Demo.bot 2000 Demo.start).
    + reflexivity.
    + vm_compute. reflexivity.
    + reflexivity.
    + vm_compute. reflexivity.
    + reflexivity.
    + vm_compute. reflexivity.
  - reflexivity.
Defined.

Lemma execute_buy_order_price_failure_witness :
  fst (execute_buy_order Demo.lib Scenario.no_ticker Demo.bot 2000 Demo.start)
  = Ret (Failure (ExceptionText
                    (Exception_ (ApiError (JStr "Network error: timed out"))))).
Proof.
  pose proof (fun w1 w2 b =>
    execute_buy_order_price_failure Demo.lib Scenario.no_ticker Demo.bot
      2000 Demo.start w1 w2 b
      (Raise (Exception_ (ApiError (JStr "Network error: timed out"))))) as H0.
  edestruct H0 as [H _].
  - reflexivity.
  - vm_compute. reflexivity.
  - reflexivity.
  - vm_compute. reflexivity.
  - exact H.
Defined.

Lemma test_api_connection_spec_witness :
  fst (test_api_connection Demo.lib Demo.env Demo.bot Demo.start) = Ret true /\
  fst (test_api_connection Demo.lib Demo.locked_out Demo.bot Demo.start) = Ret false.
Proof.
  split.
  - destruct (test_api_connection_spec Demo.lib Demo.env Demo.bot Demo.start) as [_ H].
    edestruct H as [_ H2]; [vm_compute; reflexivity|].
    specialize (H2 eq_refl). erewrite H2 by (vm_compute; reflexivity). reflexivity.
  - destruct (test_api_connection_spec Demo.lib Demo.locked_out Demo.bot Demo.start)
      as [_ H].
    edestruct H as [_ H2]; [vm_compute; reflexivity|].
    specialize (H2 eq_refl). erewrite H2 by (vm_compute; reflexivity). reflexivity.
Defined.

Lemma queries_read_only_witness :
  all_get (snd (calculate_buy_amount Demo.lib Demo.env Demo.bot Demo.start)) /\
  all_get (snd (get_portfolio_summary Demo.lib Demo.env Demo.bot Demo.start)).
Proof.
  destruct (queries_read_only Demo.lib Demo.env Demo.bot)
    as (_ & _ & _ & Hc & _ & Hp & _).
  split; [apply Hc|apply Hp]; reflexivity.
Defined.

Lemma run_connection_test_failed_witness :
  fst (run Demo.lib Demo.locked_out Demo.bot Demo.start)
  = Raise (Exception_ ApiConnectionTestFailed).
Proof.
  edestruct (run_connection_test_failed Demo.lib Demo.locked_out Demo.bot Demo.start)
    as [H _].
  - vm_compute. reflexivity.
  - exact H.
Defined.

Lemma run_orders_only_when_positive_witness :
  all_get (snd (run Demo.lib Scenario.candles_down Demo.bot Demo.start)).
Proof.
  destruct (run_orders_only_when_positive Demo.lib Scenario.candles_down Demo.bot
              Demo.start eq_refl) as [H|(a & s & r & w1 & w2 & w3 & w4 & _ & _ & _ & H)].
  - exact H.
  - exfalso. vm_compute in H. discriminate.
Defined.
